(** * A shallow embedding of [form_filling_agent.py]

    The agent drives a browser through Selenium and consults a chat model
    twice: once to obtain a mapping from form-element identifiers to values
    ([analyze_form]) and once to decide whether the filled form may be
    submitted ([submit_form]).

    The Python methods are transcribed as computations in a state-and-
    exception monad.  The browser session and the chat client are an
    interface ([Browser]); the program text never looks behind it, so every
    theorem stated over an arbitrary [Browser] holds for any behaviour of
    the page, the selector engine and the chat service.  A small static
    page model ([StaticDom]) implements the interface so that the methods
    can be run on concrete inputs.

    Modelling boundaries, fixed once here:
    - a Python [str] is a Rocq [string]; a character is read as the code
      point with the same number (the range 0..255);
    - exceptions are the subclasses of [Exception]; [KeyboardInterrupt] and
      [SystemExit] are outside the model;
    - [time.sleep] is not modelled (the page changes only through the calls
      the agent itself issues);
    - [json.loads], [json.dumps] and the [repr] of floats and containers are
      library functions and are parameters of the development. *)

From Stdlib Require Import ZArith List Bool Ascii String Lia.
From Stdlib Require Import Numbers.DecimalString Floats.
Import ListNotations.

Set Warnings "-register-all".
Local Open Scope string_scope.
Local Open Scope Z_scope.

(* ================================================================== *)
(** * Python values *)
(* ================================================================== *)

(** What [json.load]/[json.loads] can produce; a [dict] keeps its
    insertion order, hence an association list. *)
Inductive value : Type :=
| PyNone
| PyBool (b : bool)
| PyInt (z : Z)
| PyFloat (f : float)
| PyStr (s : string)
| PyList (l : list value)
| PyDict (d : list (string * value)).

(** [value == s] for a string literal [s]. *)
Definition py_eq_str (v : value) (s : string) : bool :=
  match v with
  | PyStr t => String.eqb t s
  | _ => false
  end.

(** [value == True]: [bool] is a subclass of [int], so [1 == True] and
    [1.0 == True] hold as well. *)
Definition py_eq_True (v : value) : bool :=
  match v with
  | PyBool b => b
  | PyInt z => z =? 1
  | PyFloat f => PrimFloat.eqb f 1%float
  | _ => false
  end.

(** [value is None]. *)
Definition py_is_None (v : value) : bool :=
  match v with PyNone => true | _ => false end.

(** Truth value of an attribute read ([None] and [""] are falsy). *)
Definition truthy (o : option string) : bool :=
  match o with
  | Some s => negb (String.eqb s "")
  | None => false
  end.

(** An attribute read as a JSON value ([None] becomes [null]). *)
Definition of_attr (o : option string) : value :=
  match o with
  | Some s => PyStr s
  | None => PyNone
  end.

(** [d[k] = v] on an insertion-ordered [dict]: an existing key keeps its
    position, a new key goes last. *)
Fixpoint dict_set (d : list (string * value)) (k : string) (v : value)
  : list (string * value) :=
  match d with
  | [] => [(k, v)]
  | (k', v') :: d' =>
      if String.eqb k' k then (k, v) :: d' else (k', v') :: dict_set d' k v
  end.

Fixpoint dict_get (d : list (string * value)) (k : string) : option value :=
  match d with
  | [] => None
  | (k', v') :: d' => if String.eqb k' k then Some v' else dict_get d' k
  end.

(* ================================================================== *)
(** * The [str] methods the agent uses *)
(* ================================================================== *)

Definition code (c : ascii) : Z := Z.of_nat (nat_of_ascii c).

(** [str.isspace] on one character. *)
Definition is_space (c : ascii) : bool :=
  let n := code c in
  ((9 <=? n) && (n <=? 13)) || ((28 <=? n) && (n <=? 32))
  || (n =? 133) || (n =? 160).

Fixpoint lstrip (s : string) : string :=
  match s with
  | String c s' => if is_space c then lstrip s' else s
  | EmptyString => EmptyString
  end.

Fixpoint rstrip (s : string) : string :=
  match s with
  | String c s' =>
      match rstrip s' with
      | EmptyString => if is_space c then EmptyString else String c EmptyString
      | r => String c r
      end
  | EmptyString => EmptyString
  end.

(** [s.strip()] *)
Definition strip (s : string) : string := rstrip (lstrip s).

(** [s.startswith(p)] *)
Fixpoint startswith (s p : string) {struct p} : bool :=
  match p, s with
  | EmptyString, _ => true
  | String a p', String b s' => Ascii.eqb a b && startswith s' p'
  | String _ _, EmptyString => false
  end.

(** [s.find(sub)]: the lowest index of an occurrence, or -1. *)
Fixpoint find (s sub : string) : Z :=
  if startswith s sub then 0
  else match s with
       | String _ s' => let r := find s' sub in if r <? 0 then -1 else r + 1
       | EmptyString => -1
       end.

(** [s.rfind(sub)]: the highest index of an occurrence, or -1. *)
Fixpoint rfind (s sub : string) : Z :=
  match s with
  | String _ s' =>
      let r := rfind s' sub in
      if 0 <=? r then r + 1
      else if startswith s sub then 0 else -1
  | EmptyString => if startswith s sub then 0 else -1
  end.

Definition len (s : string) : Z := Z.of_nat (String.length s).

(** Index normalisation of a slice bound. *)
Definition slice_bound (n i : Z) : Z :=
  if i <? 0 then Z.max 0 (i + n) else Z.min i n.

(** [s[a:b]] *)
Definition slice (s : string) (a b : Z) : string :=
  let a' := slice_bound (len s) a in
  let b' := slice_bound (len s) b in
  String.substring (Z.to_nat a') (Z.to_nat (b' - a')) s.

(** [s[:n]] *)
Definition take (n : Z) (s : string) : string := slice s 0 n.

(** [sub in s] *)
Fixpoint contains (s sub : string) : bool :=
  startswith s sub
  || match s with
     | String _ s' => contains s' sub
     | EmptyString => false
     end.

Fixpoint drop (n : nat) (s : string) : string :=
  match n, s with
  | S n', String _ s' => drop n' s'
  | _, _ => s
  end.

(** [s.replace(old, "")] for a non-empty [old]: every non-overlapping
    occurrence, scanning from the left.  [skip] counts the characters of a
    matched occurrence that are still to be dropped. *)
Fixpoint remove_from (skip : nat) (s old : string) : string :=
  match s with
  | EmptyString => EmptyString
  | String c s' =>
      match skip with
      | S k => remove_from k s' old
      | O =>
          if startswith s old
          then remove_from (String.length old - 1) s' old
          else String c (remove_from O s' old)
      end
  end.

Definition remove_all (s old : string) : string := remove_from O s old.

Definition lower_char (c : ascii) : ascii :=
  let n := code c in
  if ((65 <=? n) && (n <=? 90))
     || ((192 <=? n) && (n <=? 222) && negb (n =? 215))
  then ascii_of_nat (Z.to_nat (n + 32)) else c.

(** [s.lower()] *)
Fixpoint lower (s : string) : string :=
  match s with
  | String c s' => String (lower_char c) (lower s')
  | EmptyString => EmptyString
  end.

(** [str(z)] for an [int]. *)
Definition str_int (z : Z) : string := NilZero.string_of_int (Z.to_int z).

Definition mem_str (s : string) (l : list string) : bool :=
  existsb (String.eqb s) l.

(** Only whitespace. *)
Fixpoint all_space (s : string) : bool :=
  match s with
  | String c s' => is_space c && all_space s'
  | EmptyString => true
  end.

(** [value in [True, "yes", "Y", "true"]] *)
Definition in_true_list (v : value) : bool :=
  py_eq_True v || py_eq_str v "yes" || py_eq_str v "Y" || py_eq_str v "true".

(** The truth value the claim about checkboxes gives a value when read
    by its own list: the boolean [True] and the strings "yes", "Y" and
    "true" denote true, everything else false. *)
Definition listed_truth (v : value) : bool :=
  match v with
  | PyBool b => b
  | PyStr t => mem_str t ["yes"; "Y"; "true"]
  | _ => false
  end.

Definition opt_is (o : option string) (s : string) : bool :=
  match o with
  | Some t => String.eqb t s
  | None => false
  end.

(** How an attribute read prints inside an f-string. *)
Definition fmt (o : option string) : string :=
  match o with
  | Some s => s
  | None => "None"
  end.

Definition nl : string := String (ascii_of_nat 10) EmptyString.
Definition dq : string := String (ascii_of_nat 34) EmptyString.

(* ================================================================== *)
(** * Exceptions and outcomes *)
(* ================================================================== *)

Inductive exn : Type :=
| NoSuchElementException (msg : string)
| JSONDecodeError (msg : string)
| AttributeError (msg : string)
| TypeError (msg : string)
| OtherException (cls msg : string).

(** [str(e)] *)
Definition exn_str (e : exn) : string :=
  match e with
  | NoSuchElementException m | JSONDecodeError m
  | AttributeError m | TypeError m | OtherException _ m => m
  end.

(** [except NoSuchElementException] *)
Definition is_NoSuchElement (e : exn) : bool :=
  match e with NoSuchElementException _ => true | _ => false end.

(** [except Exception] and the bare [except:] *)
Definition any_exception (e : exn) : bool := true.

Inductive outcome (A : Type) : Type :=
| Ok (a : A)
| Raise (e : exn).
Arguments Ok {A} a.
Arguments Raise {A} e.

(* ================================================================== *)
(** * The browser session and the chat client *)
(* ================================================================== *)

Inductive By : Type := By_ID | By_NAME | By_XPATH.

(** [W] is the state of everything outside the agent (the page, the
    session, the chat service); [elem] is a [WebElement] handle.  Reads
    leave [W] alone and may raise; actions return the next [W] whether or
    not they raise. *)
Class Browser (W elem : Type) : Type := {
  driver_get : string -> W -> outcome unit * W;
  page_source : W -> outcome string;
  find_element : By -> string -> W -> outcome elem;
  find_elements : By -> string -> W -> outcome (list elem);
  elem_find_element : elem -> By -> string -> W -> outcome elem;
  get_attribute : elem -> string -> W -> outcome (option string);
  text : elem -> W -> outcome string;
  tag_name : elem -> W -> outcome string;
  is_selected : elem -> W -> outcome bool;
  click : elem -> W -> outcome unit * W;
  clear : elem -> W -> outcome unit * W;
  send_keys : elem -> string -> W -> outcome unit * W;
  Select_init : elem -> W -> outcome unit;
  select_by_visible_text : elem -> string -> W -> outcome unit * W;
  select_by_value : elem -> string -> W -> outcome unit * W;
  (** [client.chat.completions.create(model, [system, user], max_tokens)]
      followed by [.choices[0].message.content] *)
  chat_completions_create :
    string -> string -> string -> Z -> W -> outcome (option string) * W;
  save_screenshot : string -> W -> outcome unit * W;
  (** [datetime.now().strftime("%Y%m%d_%H%M%S")] *)
  now_stamp : W -> string;
  quit : W -> outcome unit * W
}.

Inductive level : Type := INFO | WARNING | ERROR.

(** What the agent did, as seen from outside.  [EvClick] keeps the state
    of the world in which the click was issued. *)
Inductive event (W elem : Type) : Type :=
| EvLog (l : level) (msg : string)
| EvGet (url : string)
| EvClick (w : W) (e : elem)
| EvClear (e : elem)
| EvSendKeys (e : elem) (s : string)
| EvSelectText (e : elem) (s : string)
| EvSelectValue (e : elem) (s : string)
| EvChat (user : string) (reply : outcome (option string))
| EvScreenshot (path : string)
| EvQuit.
Arguments EvLog {W elem} l msg.
Arguments EvGet {W elem} url.
Arguments EvClick {W elem} w e.
Arguments EvClear {W elem} e.
Arguments EvSendKeys {W elem} e s.
Arguments EvSelectText {W elem} e s.
Arguments EvSelectValue {W elem} e s.
Arguments EvChat {W elem} user reply.
Arguments EvScreenshot {W elem} path.
Arguments EvQuit {W elem}.

(** The outside world together with the events so far, newest first. *)
Record state (W elem : Type) : Type := mkState {
  world : W;
  trace : list (event W elem)
}.
Arguments mkState {W elem} world trace.
Arguments world {W elem} s.
Arguments trace {W elem} s.

(** A click, a clear, typed text or a selection. *)
Definition is_mutation {W elem} (ev : event W elem) : bool :=
  match ev with
  | EvClick _ _ | EvClear _ | EvSendKeys _ _
  | EvSelectText _ _ | EvSelectValue _ _ => true
  | _ => false
  end.

Definition is_click {W elem} (ev : event W elem) : bool :=
  match ev with EvClick _ _ => true | _ => false end.

(** A reply of the chat model that contains the token. *)
Definition is_proceed_reply {W elem} (ev : event W elem) : bool :=
  match ev with
  | EvChat _ (Ok (Some d)) => contains d "PROCEED"
  | _ => false
  end.

(* ================================================================== *)
(** * The agent *)
(* ================================================================== *)

Section Agent.

Context {W elem : Type} {B : Browser W elem}.

(** [self.form_url] and [self.data], set once by [__init__]. *)
Variable form_url : string.
Variable data : value.

(** [json.loads]; [None] stands for raising [json.JSONDecodeError]. *)
Variable json_loads : string -> option value.
(** [json.dumps(_, indent=2)] *)
Variable json_dumps : value -> string.
(** [str] of a float, a list or a dict. *)
Variable repr : value -> string.

Local Abbreviation state := (state W elem).
Local Abbreviation event := (event W elem).

(** ** The monad: state and exceptions *)

Definition M (A : Type) : Type := state -> outcome A * state.

Definition ret {A} (a : A) : M A := fun s => (Ok a, s).

Definition raise {A} (e : exn) : M A := fun s => (Raise e, s).

Definition bind {A C} (m : M A) (k : A -> M C) : M C :=
  fun s =>
    match m s with
    | (Ok a, s') => k a s'
    | (Raise e, s') => (Raise e, s')
    end.

Notation "x <- m ;; k" := (bind m (fun x => k))
  (at level 61, m at next level, right associativity).
Notation "m ;; k" := (bind m (fun _ => k))
  (at level 61, right associativity).

(** [try: m  except <catches> as e: h e] *)
Definition try_except {A} (m : M A) (catches : exn -> bool) (h : exn -> M A)
  : M A :=
  fun s =>
    match m s with
    | (Raise e, s') => if catches e then h e s' else (Raise e, s')
    | r => r
    end.

(** [try: m  finally: f] *)
Definition try_finally {A} (m : M A) (f : M unit) : M A :=
  fun s =>
    let (r, s1) := m s in
    match f s1 with
    | (Ok _, s2) => (r, s2)
    | (Raise e, s2) => (Raise e, s2)
    end.

Definition emit (ev : event) : M unit :=
  fun s => (Ok tt, mkState (world s) (ev :: trace s)).

Definition log (l : level) (msg : string) : M unit := emit (EvLog l msg).

(** A read of the page. *)
Definition query {A} (q : W -> outcome A) : M A :=
  fun s => (q (world s), s).

(** An action on the page: the event is recorded when the call is issued. *)
Definition act {A} (ev : W -> outcome A -> event)
           (f : W -> outcome A * W) : M A :=
  fun s =>
    let (r, w') := f (world s) in
    (r, mkState w' (ev (world s) r :: trace s)).

Definition do_click (e : elem) : M unit :=
  act (fun w _ => EvClick w e) (click e).
Definition do_clear (e : elem) : M unit :=
  act (fun _ _ => EvClear e) (clear e).
Definition do_send_keys (e : elem) (t : string) : M unit :=
  act (fun _ _ => EvSendKeys e t) (send_keys e t).
Definition do_select_text (e : elem) (t : string) : M unit :=
  act (fun _ _ => EvSelectText e t) (select_by_visible_text e t).
Definition do_select_value (e : elem) (t : string) : M unit :=
  act (fun _ _ => EvSelectValue e t) (select_by_value e t).
Definition do_chat (model system user : string) (max_tokens : Z)
  : M (option string) :=
  act (fun _ r => EvChat user r)
      (chat_completions_create model system user max_tokens).

(** ** Names bound on an instance *)

(** The attributes [__init__] sets and the methods the class defines. *)
Definition agent_names : list string :=
  ["form_url"; "data"; "driver"; "client"; "wait";
   "__init__"; "navigate_to_form"; "analyze_form"; "fill_form";
   "submit_form"; "run"].

(** [self.<name>(args)] for a method the source calls by name.  The
    attribute lookup comes first; the only such call in the source names
    an attribute that is not bound, so the call proper is not modelled. *)
Definition call_self {A} (name : string) (args : list value) : M A :=
  if mem_str name agent_names
  then raise (OtherException "NotModelled" name)
  else raise (AttributeError
                ("'FormFillingAgent' object has no attribute '"
                   ++ name ++ "'")).

(** ** [navigate_to_form] *)

Definition navigate_to_form : M unit :=
  log INFO ("Navigating to " ++ form_url) ;;
  act (fun _ _ => EvGet form_url) (driver_get form_url).

(** ** [analyze_form] *)

Definition controls_xpath : string := "//input | //select | //textarea".

(** The body of the [try] in the introspection loop: the descriptor of
    one control. *)
Definition describe (idx : Z) (element : elem) : M value :=
  element_type <- query (get_attribute element "type") ;;
  element_id <- query (get_attribute element "id") ;;
  element_name <- query (get_attribute element "name") ;;
  log INFO (nl ++ "Processing element " ++ str_int idx ++ ":") ;;
  log INFO ("Type: " ++ fmt element_type) ;;
  log INFO ("ID: " ++ fmt element_id) ;;
  log INFO ("Name: " ++ fmt element_name) ;;
  element_label_text <-
    (if truthy element_id then
       label_elements <-
         query (find_elements By_XPATH
                  ("//label[@for='" ++ fmt element_id ++ "']")) ;;
       match label_elements with
       | l0 :: _ =>
           t <- query (text l0) ;;
           log INFO ("Found label text: " ++ t) ;;
           ret t
       | [] =>
           log INFO "No label found for this element" ;;
           ret ""
       end
     else ret "") ;;
  placeholder <- query (get_attribute element "placeholder") ;;
  log INFO ("Placeholder: " ++ fmt placeholder) ;;
  parent_text <-
    try_except
      (parent <- query (elem_find_element element By_XPATH "./parent::*") ;;
       t <- query (text parent) ;;
       log INFO ("Parent text: " ++ t) ;;
       ret t)
      any_exception
      (fun e =>
         log WARNING ("Could not get parent text: " ++ exn_str e) ;;
         ret "") ;;
  ret (PyDict [("type", of_attr element_type);
               ("id", of_attr element_id);
               ("name", of_attr element_name);
               ("label", PyStr element_label_text);
               ("placeholder", of_attr placeholder);
               ("parent_text", PyStr parent_text)]).

(** [for idx, element in enumerate(form_elements, 1)] *)
Fixpoint describe_all (idx : Z) (form_elements : list elem)
         (element_details : list value) : M (list value) :=
  match form_elements with
  | [] => ret element_details
  | element :: rest =>
      element_details' <-
        try_except
          (d <- describe idx element ;; ret (element_details ++ [d])%list)
          any_exception
          (fun e =>
             log ERROR ("Error processing element " ++ str_int idx ++ ": "
                          ++ exn_str e) ;;
             ret element_details) ;;
      describe_all (idx + 1) rest element_details'
  end.

(** Lines 52-110: the scan of the document. *)
Definition introspect : M (list value) :=
  log INFO "Analyzing form structure..." ;;
  source <- query page_source ;;
  log INFO ("Page source length: " ++ str_int (len source)) ;;
  form_elements <- query (find_elements By_XPATH controls_xpath) ;;
  log INFO ("Found " ++ str_int (Z.of_nat (List.length form_elements))
              ++ " form elements") ;;
  element_details <- describe_all 1 form_elements [] ;;
  log INFO (nl ++ "Preparing LLM prompt with collected details:") ;;
  log INFO ("Total elements collected: "
              ++ str_int (Z.of_nat (List.length element_details))) ;;
  ret element_details.

Definition pad8 : string := "        ".

Definition mapping_prompt (element_details : list value) : string :=
  nl ++ pad8
  ++ "I need to map my data to form fields on a webpage. Below are the form elements I found:"
  ++ nl ++ pad8 ++ nl ++ pad8
  ++ json_dumps (PyList element_details)
  ++ nl ++ pad8 ++ nl ++ pad8
  ++ "Here is my data that I need to fill in the form:"
  ++ nl ++ pad8 ++ nl ++ pad8
  ++ json_dumps data
  ++ nl ++ pad8 ++ nl ++ pad8
  ++ "Please create a mapping strategy that matches my data fields to the appropriate form elements."
  ++ nl ++ pad8
  ++ "The output should be a JSON object where keys are the form element identifiers (prefer id, then name)"
  ++ nl ++ pad8
  ++ "and values are the corresponding data values from my dataset."
  ++ nl ++ pad8 ++ nl ++ pad8
  ++ "Format your response as a valid JSON object ONLY, with no explanation text before or after."
  ++ nl ++ pad8
  ++ "Do NOT include any fields that would indicate signing the form as a representative of any entity."
  ++ nl ++ pad8.

Definition mapping_system : string :=
  "You are a helpful assistant that specializes in web form automation. Given form elements and data, you match data fields to appropriate form inputs. Always respond with valid JSON only.".

(** Lines 151-159: what is handed to [json.loads]. *)
Definition clean_reply (raw_content : string) : string :=
  let cleaned_content := strip raw_content in
  if startswith cleaned_content "```json" then
    let json_start := find cleaned_content nl + 1 in
    let json_end := rfind cleaned_content "```" in
    if json_end >? json_start
    then strip (slice cleaned_content json_start json_end)
    else cleaned_content
  else cleaned_content.

(** The body of the outer [try] (lines 134-175). *)
Definition query_llm (element_details : list value) : M value :=
  raw_content <-
    do_chat "gpt-4-turbo" mapping_system (mapping_prompt element_details)
            2000 ;;
  log INFO "Raw LLM response received:" ;;
  log INFO ("Response type: "
              ++ match raw_content with
                 | Some _ => "<class 'str'>"
                 | None => "<class 'NoneType'>"
                 end) ;;
  log INFO ("Response length: "
              ++ str_int (if truthy raw_content
                          then len (fmt raw_content) else 0)) ;;
  log INFO ("First 100 chars: "
              ++ (if truthy raw_content
                  then take 100 (fmt raw_content) else "Empty response")) ;;
  match raw_content with
  | None =>
      raise (AttributeError "'NoneType' object has no attribute 'strip'")
  | Some raw =>
      let cleaned_content := clean_reply raw in
      log INFO ("Cleaned content: " ++ take 100 cleaned_content ++ "...") ;;
      match json_loads cleaned_content with
      | Some mapping_strategy =>
          log INFO "Successfully parsed LLM response as JSON" ;;
          log INFO "Mapping strategy:" ;;
          log INFO (json_dumps mapping_strategy) ;;
          ret mapping_strategy
      | None =>
          (* the text of the decoder's error is not modelled *)
          log ERROR "JSON parsing error: " ;;
          log ERROR ("Could not parse response as JSON. Full response: "
                       ++ cleaned_content) ;;
          call_self "create_fallback_mapping" [PyList element_details]
      end
  end.

Definition analyze_form : M value :=
  element_details <- introspect ;;
  log INFO "Sending request to LLM..." ;;
  try_except (query_llm element_details) any_exception
    (fun e =>
       log ERROR ("Error in LLM request: " ++ exn_str e) ;;
       ret PyNone).

(** ** [fill_form] *)

(** [str(value)] *)
Definition py_str (v : value) : string :=
  match v with
  | PyNone => "None"
  | PyBool true => "True"
  | PyBool false => "False"
  | PyInt z => str_int z
  | PyStr s => s
  | _ => repr v
  end.

(** Lines 192-203: the three lookups, each tried only when the one
    before raised [NoSuchElementException].  [None] is the [continue]
    after the warning. *)
Definition locate (field_id : string) : M (option elem) :=
  try_except
    (element <- query (find_element By_ID field_id) ;; ret (Some element))
    is_NoSuchElement
    (fun _ =>
       try_except
         (element <- query (find_element By_NAME field_id) ;;
          ret (Some element))
         is_NoSuchElement
         (fun _ =>
            try_except
              (element <-
                 query (find_element By_XPATH
                          ("//input[@placeholder='" ++ field_id ++ "']")) ;;
               ret (Some element))
              is_NoSuchElement
              (fun _ =>
                 log WARNING ("Could not find element with identifier: "
                                ++ field_id) ;;
                 ret None))).

(** Lines 206-230: dispatch on the type of the element found. *)
Definition inject (field_id : string) (v : value) (element : elem) : M unit :=
  element_type <- query (get_attribute element "type") ;;
  (if opt_is element_type "checkbox" then
     if in_true_list v then
       selected <- query (is_selected element) ;;
       if negb selected then do_click element else ret tt
     else ret tt
   else if opt_is element_type "radio" then
     if mem_str (lower (py_str v)) ["true"; "yes"; "y"; "1"]
     then do_click element else ret tt
   else
     tag <- query (tag_name element) ;;
     if String.eqb tag "select" then
       query (Select_init element) ;;
       try_except (do_select_text element (py_str v)) any_exception
         (fun _ =>
            try_except (do_select_value element (py_str v)) any_exception
              (fun _ =>
                 log WARNING ("Could not select value " ++ py_str v
                                ++ " for " ++ field_id)))
     else
       do_clear element ;;
       do_send_keys element (py_str v)) ;;
  log INFO ("Filled field " ++ field_id ++ " with value: " ++ py_str v).

(** The body of the per-field [try] (lines 187-230). *)
Definition fill_field_body (field_id : string) (v : value) : M unit :=
  if py_is_None v || py_eq_str v "" then ret tt
  else
    found <- locate field_id ;;
    match found with
    | None => ret tt
    | Some element => inject field_id v element
    end.

(** One iteration of the loop, with its [except Exception]. *)
Definition fill_field (field_id : string) (v : value) : M unit :=
  try_except (fill_field_body field_id v) any_exception
    (fun e =>
       log ERROR ("Error filling field " ++ field_id ++ ": " ++ exn_str e)).

(** [for field_id, value in mapping_strategy.items()] *)
Fixpoint fill_items (items : list (string * value)) : M unit :=
  match items with
  | [] => ret tt
  | (field_id, v) :: rest => fill_field field_id v ;; fill_items rest
  end.

(** [mapping_strategy.items()]: only a [dict] has the attribute. *)
Definition items_of (mapping_strategy : value) : M (list (string * value)) :=
  match mapping_strategy with
  | PyDict d => ret d
  | PyNone =>
      raise (AttributeError "'NoneType' object has no attribute 'items'")
  | PyBool _ =>
      raise (AttributeError "'bool' object has no attribute 'items'")
  | PyInt _ =>
      raise (AttributeError "'int' object has no attribute 'items'")
  | PyFloat _ =>
      raise (AttributeError "'float' object has no attribute 'items'")
  | PyStr _ =>
      raise (AttributeError "'str' object has no attribute 'items'")
  | PyList _ =>
      raise (AttributeError "'list' object has no attribute 'items'")
  end.

Definition fill_form (mapping_strategy : value) : M unit :=
  log INFO "Filling form with provided data..." ;;
  items <- items_of mapping_strategy ;;
  fill_items items ;;
  log INFO "Form filling complete.".

(** ** [submit_form] *)

Definition submit_selectors : list string :=
  ["//button[@type='submit']";
   "//input[@type='submit']";
   "//button[contains(text(), 'Submit')]";
   "//button[contains(text(), 'send')]";
   "//button[contains(@class, 'submit')]";
   "//input[contains(@value, 'Submit')]"].

(** Lines 261-269: one control read into [form_data]. *)
Definition read_control (form_data : list (string * value)) (element : elem)
  : M (list (string * value)) :=
  by_id <- query (get_attribute element "id") ;;
  element_id <-
    (if truthy by_id then ret by_id
     else query (get_attribute element "name")) ;;
  if truthy element_id then
    t <- query (get_attribute element "type") ;;
    if opt_is t "checkbox" then
      selected <- query (is_selected element) ;;
      ret (dict_set form_data (fmt element_id) (PyBool selected))
    else
      t' <- query (get_attribute element "type") ;;
      if opt_is t' "radio" then
        selected <- query (is_selected element) ;;
        if selected
        then ret (dict_set form_data (fmt element_id) (PyBool true))
        else ret form_data
      else
        v <- query (get_attribute element "value") ;;
        ret (dict_set form_data (fmt element_id) (of_attr v))
  else ret form_data.

(** [for element in form_elements] *)
Fixpoint read_controls (form_data : list (string * value))
         (form_elements : list elem) : M (list (string * value)) :=
  match form_elements with
  | [] => ret form_data
  | element :: rest =>
      form_data' <- read_control form_data element ;;
      read_controls form_data' rest
  end.

(** Lines 257-269: the snapshot of the filled form. *)
Definition snapshot : M (list (string * value)) :=
  form_elements <- query (find_elements By_XPATH controls_xpath) ;;
  read_controls [] form_elements.

Definition pad16 : string := pad8 ++ pad8.

Definition submit_prompt (form_data : list (string * value)) : string :=
  nl ++ pad16
  ++ "I've filled out a form with the following data:"
  ++ nl ++ pad16 ++ nl ++ pad16
  ++ json_dumps (PyDict form_data)
  ++ nl ++ pad16 ++ nl ++ pad16
  ++ "Original data I intended to use:"
  ++ nl ++ pad16 ++ nl ++ pad16
  ++ json_dumps data
  ++ nl ++ pad16 ++ nl ++ pad16
  ++ "Should I proceed with submission? Are there any issues or missing required fields?"
  ++ nl ++ pad16
  ++ "Is there anything that looks like signing as a representative that I should avoid?"
  ++ nl ++ pad16 ++ nl ++ pad16
  ++ "Please respond with " ++ dq ++ "PROCEED" ++ dq
  ++ " if everything looks good for submission,"
  ++ nl ++ pad16
  ++ "or " ++ dq ++ "STOP" ++ dq
  ++ " followed by the reason if there are issues that should be addressed before submission."
  ++ nl ++ pad16.

Definition submit_system : string :=
  "You are a helpful assistant that analyzes form data before submission to ensure completeness and compliance with requirements.".

(** The body of the [try] for one selector (lines 253-307); the result is
    the value the method returns from inside the loop. *)
Definition attempt (selector : string) : M bool :=
  submit_button <- query (find_element By_XPATH selector) ;;
  log INFO ("Submit button found with selector: " ++ selector) ;;
  form_data <- snapshot ;;
  decision <-
    do_chat "gpt-4-turbo" submit_system (submit_prompt form_data) 500 ;;
  match decision with
  | None => raise (TypeError "argument of type 'NoneType' is not iterable")
  | Some d =>
      if contains d "PROCEED" then
        log INFO "LLM approved form submission. Submitting form..." ;;
        do_click submit_button ;;
        log INFO "Form submitted successfully." ;;
        ret true
      else
        let reason := strip (remove_all d "STOP") in
        log WARNING ("LLM advised against submission: " ++ reason) ;;
        ret false
  end.

(** One iteration of the loop over the selectors: [Some b] when the
    method returns [b], [None] when the loop goes on ([continue]). *)
Definition try_selector (selector : string) : M (option bool) :=
  try_except
    (b <- attempt selector ;; ret (Some b))
    any_exception
    (fun e =>
       if is_NoSuchElement e then ret None
       else
         log ERROR ("Error during form submission: " ++ exn_str e) ;;
         ret (Some false)).

Fixpoint submit_loop (selectors : list string) : M bool :=
  match selectors with
  | [] =>
      log WARNING "Could not find submit button." ;;
      ret false
  | selector :: rest =>
      r <- try_selector selector ;;
      match r with
      | Some b => ret b
      | None => submit_loop rest
      end
  end.

Definition submit_form : M bool :=
  log INFO "Looking for submit button..." ;;
  submit_loop submit_selectors.

(** ** [run] *)

Definition run : M bool :=
  try_finally
    (navigate_to_form ;;
     mapping_strategy <- analyze_form ;;
     fill_form mapping_strategy ;;
     submitted <- submit_form ;;
     (if submitted then
        timestamp <- (fun s => (Ok (now_stamp (world s)), s)) ;;
        let screenshot_path := "form_submission_" ++ timestamp ++ ".png" in
        act (fun _ _ => EvScreenshot screenshot_path)
            (save_screenshot screenshot_path) ;;
        log INFO ("Screenshot saved to " ++ screenshot_path)
      else ret tt) ;;
     ret submitted)
    (act (fun _ _ => EvQuit) quit).

(** ** Observations used in the statements *)

(** The events a computation added, given the traces before and after. *)
Definition added (s s' : state) (new : list event) : Prop :=
  trace s' = (new ++ trace s)%list.

(** The state in which the request to the chat model is issued, given
    the state the scan of the document ended in. *)
Definition sending (s1 : state) : state :=
  mkState (world s1) (EvLog INFO "Sending request to LLM..." :: trace s1).

(** An element that reads as a ticked checkbox in world [w]. *)
Definition checked_checkbox (w : W) (e : elem) : Prop :=
  get_attribute e "type" w = Ok (Some "checkbox")
  /\ is_selected e w = Ok true.

(** The browser leaves a ticked checkbox ticked, whatever the agent does
    to the page, unless the agent clicks that very element. *)
Definition preserves_ticks : Prop :=
  forall (w : W) (e : elem), checked_checkbox w e ->
    (forall e' r w', e' <> e -> click e' w = (r, w') ->
                     checked_checkbox w' e)
    /\ (forall e' r w', clear e' w = (r, w') -> checked_checkbox w' e)
    /\ (forall e' t r w', send_keys e' t w = (r, w') ->
                          checked_checkbox w' e)
    /\ (forall e' t r w', select_by_visible_text e' t w = (r, w') ->
                          checked_checkbox w' e)
    /\ (forall e' t r w', select_by_value e' t w = (r, w') ->
                          checked_checkbox w' e).

(** From [s] to [s']: only events were added, no click among them was
    issued on an element that read as a ticked checkbox at that moment,
    and (in a browser that [preserves_ticks]) what was ticked still is. *)
Definition ticks_safe (s s' : state) : Prop :=
  exists new,
    added s s' new
    /\ (forall w e, In (EvClick w e) new -> ~ checked_checkbox w e)
    /\ (preserves_ticks ->
        forall e, checked_checkbox (world s) e ->
                  checked_checkbox (world s') e).

(** In a list of events, newest first, every click has an approving
    reply of the chat model somewhere before it. *)
Definition clicks_guarded (new : list event) : Prop :=
  forall post w e pre,
    new = (post ++ EvClick w e :: pre)%list ->
    exists ev, In ev pre /\ is_proceed_reply ev = true.

(** The amended reading of the snapshot rule, element by element: a
    checkbox files its ticked state, a radio button files [True] when it
    is chosen and nothing otherwise, any other control files its value;
    [None] when nothing is filed. *)
Definition entry_of (w : W) (e : elem) : option value :=
  match get_attribute e "type" w with
  | Ok t =>
      if opt_is t "checkbox" then
        match is_selected e w with
        | Ok b => Some (PyBool b)
        | Raise _ => None
        end
      else if opt_is t "radio" then
        match is_selected e w with
        | Ok true => Some (PyBool true)
        | _ => None
        end
      else
        match get_attribute e "value" w with
        | Ok v => Some (of_attr v)
        | Raise _ => None
        end
  | Raise _ => None
  end.

(** The key under which [read_control] files an element: its [id], or
    its [name] when the [id] is empty; [None] when both are empty or a
    read raises. *)
Definition key_of (w : W) (e : elem) : option string :=
  match get_attribute e "id" w with
  | Ok a =>
      if truthy a then a
      else match get_attribute e "name" w with
           | Ok b => if truthy b then b else None
           | Raise _ => None
           end
  | Raise _ => None
  end.

(** ** Observations used in the further properties *)

Definition is_log (ev : event) : bool :=
  match ev with EvLog _ _ => true | _ => false end.

Definition is_error_log (ev : event) : bool :=
  match ev with EvLog ERROR _ => true | _ => false end.

(** A log line below the ERROR level. *)
Definition is_plain_log (ev : event) : bool :=
  match ev with
  | EvLog INFO _ | EvLog WARNING _ => true
  | _ => false
  end.

Definition is_chat (ev : event) : bool :=
  match ev with EvChat _ _ => true | _ => false end.

Definition is_screenshot (ev : event) : bool :=
  match ev with EvScreenshot _ => true | _ => false end.

Definition is_ok {A} (r : outcome A) : bool :=
  match r with Ok _ => true | Raise _ => false end.

(** The test of the radio branch (line 213). *)
Definition radio_wants (v : value) : bool :=
  mem_str (lower (py_str v)) ["true"; "yes"; "y"; "1"].

(** The line that closes an iteration of [fill_form] (line 229). *)
Definition filled_line (field_id : string) (v : value) : event :=
  EvLog INFO ("Filled field " ++ field_id ++ " with value: " ++ py_str v).

Definition is_quit (ev : event) : bool :=
  match ev with EvQuit => true | _ => false end.

(** What the gate may add to the trace: log lines, requests to the chat
    model and clicks. *)
Definition gate_event (ev : event) : bool :=
  is_log ev || is_chat ev || is_click ev.

(** What the phases before the screenshot may add: log lines, the
    navigation, requests to the chat model and actions on the page. *)
Definition work_event (ev : event) : bool :=
  match ev with
  | EvScreenshot _ | EvQuit => false
  | _ => true
  end.

(** The [try] block of [run] (lines 321-333). *)
Definition run_body : M bool :=
  navigate_to_form ;;
  mapping_strategy <- analyze_form ;;
  fill_form mapping_strategy ;;
  submitted <- submit_form ;;
  (if submitted then
     timestamp <- (fun s => (Ok (now_stamp (world s)), s)) ;;
     let screenshot_path := "form_submission_" ++ timestamp ++ ".png" in
     act (fun _ _ => EvScreenshot screenshot_path)
         (save_screenshot screenshot_path) ;;
     log INFO ("Screenshot saved to " ++ screenshot_path)
   else ret tt) ;;
  ret submitted.

(** A computation that only reads: whatever it returns, the world is
    the one it started in and it added nothing but log lines below the
    ERROR level. *)
Definition reads_quietly {A} (m : M A) : Prop :=
  forall s r s',
    m s = (r, s') ->
    world s' = world s
    /\ exists new, added s s' new /\ forallb is_plain_log new = true.

End Agent.

(* ================================================================== *)
(** * A JSON decoder for running the model *)
(* ================================================================== *)

(** [json.loads] restricted to documents without fractional or exponent
    numbers and without [\u] escapes; outside that fragment it answers
    [None].  It is used only to run the agent on concrete replies: the
    theorems about the agent take the decoder as a parameter. *)
Module JsonLite.

Definition is_ws (c : ascii) : bool :=
  let n := code c in (n =? 32) || (n =? 9) || (n =? 10) || (n =? 13).

Fixpoint skip_ws (s : string) : string :=
  match s with
  | String c s' => if is_ws c then skip_ws s' else s
  | EmptyString => EmptyString
  end.

Definition is_digit (c : ascii) : bool :=
  let n := code c in (48 <=? n) && (n <=? 57).

(** The digits at the front of [s], as a number, and what follows. *)
Fixpoint digits (acc : Z) (s : string) : Z * string :=
  match s with
  | String c s' =>
      if is_digit c then digits (10 * acc + (code c - 48)) s' else (acc, s)
  | EmptyString => (acc, s)
  end.

Definition starts_fraction (s : string) : bool :=
  match s with
  | String c _ =>
      let n := code c in (n =? 46) || (n =? 101) || (n =? 69)
  | EmptyString => false
  end.

(** An unsigned integer literal: no leading zero, no fraction. *)
Definition natural (s : string) : option (Z * string) :=
  match s with
  | String c s' =>
      if negb (is_digit c) then None
      else
        let (n, rest) := digits 0 s in
        if (code c =? 48) && negb (String.eqb (drop 1 s) rest) then None
        else if starts_fraction rest then None
        else Some (n, rest)
  | EmptyString => None
  end.

Definition unescape (c : ascii) : option ascii :=
  let n := code c in
  if (n =? 34) || (n =? 92) || (n =? 47) then Some c
  else if n =? 110 then Some (ascii_of_nat 10)
  else if n =? 116 then Some (ascii_of_nat 9)
  else if n =? 114 then Some (ascii_of_nat 13)
  else if n =? 98 then Some (ascii_of_nat 8)
  else if n =? 102 then Some (ascii_of_nat 12)
  else None.

(** The rest of a string literal after its opening quote. *)
Fixpoint chars (s : string) : option (string * string) :=
  match s with
  | EmptyString => None
  | String c s' =>
      let n := code c in
      if n =? 34 then Some (EmptyString, s')
      else if n <? 32 then None
      else if n =? 92 then
        match s' with
        | String e s'' =>
            match unescape e, chars s'' with
            | Some c', Some (t, rest) => Some (String c' t, rest)
            | _, _ => None
            end
        | EmptyString => None
        end
      else
        match chars s' with
        | Some (t, rest) => Some (String c t, rest)
        | None => None
        end
  end.

Definition expect (p s : string) : option string :=
  if startswith s p then Some (drop (String.length p) s) else None.

Fixpoint parse (fuel : nat) (s : string) : option (value * string) :=
  match fuel with
  | O => None
  | S fuel' =>
      let elements :=
        fix elements (n : nat) (acc : list value) (s : string)
          : option (list value * string) :=
          match n with
          | O => None
          | S n' =>
              match parse fuel' s with
              | Some (v, rest) =>
                  match skip_ws rest with
                  | String c rest' =>
                      if code c =? 44
                      then elements n' (acc ++ [v])%list rest'
                      else if code c =? 93
                      then Some ((acc ++ [v])%list, rest')
                      else None
                  | EmptyString => None
                  end
              | None => None
              end
          end in
      let members :=
        fix members (n : nat) (acc : list (string * value)) (s : string)
          : option (list (string * value) * string) :=
          match n with
          | O => None
          | S n' =>
              match expect dq (skip_ws s) with
              | Some s1 =>
                  match chars s1 with
                  | Some (k, s2) =>
                      match expect ":" (skip_ws s2) with
                      | Some s3 =>
                          match parse fuel' s3 with
                          | Some (v, rest) =>
                              match skip_ws rest with
                              | String c rest' =>
                                  if code c =? 44
                                  then members n' (dict_set acc k v) rest'
                                  else if code c =? 125
                                  then Some (dict_set acc k v, rest')
                                  else None
                              | EmptyString => None
                              end
                          | None => None
                          end
                      | None => None
                      end
                  | None => None
                  end
              | None => None
              end
          end in
      match skip_ws s with
      | EmptyString => None
      | String c s' as t =>
          let n := code c in
          if startswith t "null" then Some (PyNone, drop 4 t)
          else if startswith t "true" then Some (PyBool true, drop 4 t)
          else if startswith t "false" then Some (PyBool false, drop 5 t)
          else if n =? 34 then
            match chars s' with
            | Some (str, rest) => Some (PyStr str, rest)
            | None => None
            end
          else if n =? 45 then
            match natural s' with
            | Some (z, rest) => Some (PyInt (- z), rest)
            | None => None
            end
          else if is_digit c then
            match natural t with
            | Some (z, rest) => Some (PyInt z, rest)
            | None => None
            end
          else if n =? 91 then
            match skip_ws s' with
            | String c' s'' =>
                if code c' =? 93 then Some (PyList [], s'')
                else
                  match elements fuel' [] s' with
                  | Some (l, rest) => Some (PyList l, rest)
                  | None => None
                  end
            | EmptyString => None
            end
          else if n =? 123 then
            match skip_ws s' with
            | String c' s'' =>
                if code c' =? 125 then Some (PyDict [], s'')
                else
                  match members fuel' [] s' with
                  | Some (d, rest) => Some (PyDict d, rest)
                  | None => None
                  end
            | EmptyString => None
            end
          else None
      end
  end.

Definition loads (s : string) : option value :=
  match parse (S (String.length s)) s with
  | Some (v, rest) =>
      match skip_ws rest with
      | EmptyString => Some v
      | String _ _ => None
      end
  | None => None
  end.

(** A compact rendering of a value, standing in for [json.dumps] and for
    [repr] when the model is run; the agent only forwards the text. *)
Fixpoint show (v : value) : string :=
  match v with
  | PyNone => "null"
  | PyBool true => "true"
  | PyBool false => "false"
  | PyInt z => str_int z
  | PyFloat _ => "<float>"
  | PyStr s => dq ++ s ++ dq
  | PyList l =>
      "[" ++ (fix go (l : list value) : string :=
                match l with
                | [] => ""
                | [x] => show x
                | x :: l' => show x ++ ", " ++ go l'
                end) l ++ "]"
  | PyDict d =>
      "{" ++ (fix go (d : list (string * value)) : string :=
                match d with
                | [] => ""
                | [(k, x)] => dq ++ k ++ dq ++ ": " ++ show x
                | (k, x) :: d' => dq ++ k ++ dq ++ ": " ++ show x ++ ", " ++ go d'
                end) d ++ "}"
  end.

End JsonLite.

(* ================================================================== *)
(** * A static page: an implementation of the interface *)
(* ================================================================== *)

(** A page without scripts, as a list of elements in document order, and
    a chat service that answers from a script.  Handles are positions in
    the list.  The selector engine knows the locators the agent builds
    and rejects every other expression. *)
Module StaticDom.

Record node : Type := mkNode {
  tag : string;
  n_type : option string;
  n_id : option string;
  n_name : option string;
  n_placeholder : option string;
  n_value : option string;
  n_class : option string;
  n_for : option string;
  n_text : string;
  n_checked : bool;
  n_options : list (string * string);   (* visible text, value *)
  n_parent : option nat;
  n_enabled : bool
}.

Record page : Type := mkPage {
  nodes : list node;
  replies : list (outcome (option string));
  asked : list string;                   (* prompts sent, newest first *)
  clicked : list nat;                    (* clicks that went through, newest first *)
  url : string;
  shots : list string;
  closed : bool
}.

Definition stale {A} : outcome A :=
  Raise (OtherException "StaleElementReferenceException"
                        "stale element reference").

Definition no_such {A} (what : string) : outcome A :=
  Raise (NoSuchElementException ("no such element: " ++ what)).

Definition attr (name : string) (n : node) : option string :=
  if String.eqb name "type" then n_type n
  else if String.eqb name "id" then n_id n
  else if String.eqb name "name" then n_name n
  else if String.eqb name "placeholder" then n_placeholder n
  else if String.eqb name "value" then n_value n
  else if String.eqb name "class" then n_class n
  else if String.eqb name "for" then n_for n
  else None.

Definition attr_contains (name sub : string) (n : node) : bool :=
  match attr name n with
  | Some v => contains v sub
  | None => false
  end.

Fixpoint ends_with (s suf : string) : bool :=
  String.eqb s suf
  || match s with
     | String _ s' => ends_with s' suf
     | EmptyString => false
     end.

(** [x] as [pre ++ k ++ suf], giving [k]. *)
Definition between (pre suf x : string) : option string :=
  if startswith x pre && ends_with x suf
     && (String.length pre + String.length suf <=? String.length x)%nat
  then Some (String.substring (String.length pre)
               (String.length x - String.length pre - String.length suf) x)
  else None.

(** The XPath expressions the engine understands. *)
Definition xpath (x : string) : option (node -> bool) :=
  if String.eqb x controls_xpath then
    Some (fun n => mem_str (tag n) ["input"; "select"; "textarea"])
  else if String.eqb x "//button[@type='submit']" then
    Some (fun n => String.eqb (tag n) "button" && opt_is (n_type n) "submit")
  else if String.eqb x "//input[@type='submit']" then
    Some (fun n => String.eqb (tag n) "input" && opt_is (n_type n) "submit")
  else if String.eqb x "//button[contains(text(), 'Submit')]" then
    Some (fun n => String.eqb (tag n) "button" && contains (n_text n) "Submit")
  else if String.eqb x "//button[contains(text(), 'send')]" then
    Some (fun n => String.eqb (tag n) "button" && contains (n_text n) "send")
  else if String.eqb x "//button[contains(@class, 'submit')]" then
    Some (fun n => String.eqb (tag n) "button"
                   && attr_contains "class" "submit" n)
  else if String.eqb x "//input[contains(@value, 'Submit')]" then
    Some (fun n => String.eqb (tag n) "input"
                   && attr_contains "value" "Submit" n)
  else
    match between "//input[@placeholder='" "']" x with
    | Some k =>
        Some (fun n => String.eqb (tag n) "input"
                       && opt_is (n_placeholder n) k)
    | None =>
        match between "//label[@for='" "']" x with
        | Some k =>
            Some (fun n => String.eqb (tag n) "label" && opt_is (n_for n) k)
        | None => None
        end
    end.

Definition selector (how : By) (x : string) : option (node -> bool) :=
  match how with
  | By_ID => Some (fun n => opt_is (n_id n) x)
  | By_NAME => Some (fun n => opt_is (n_name n) x)
  | By_XPATH => xpath x
  end.

(** Positions, from [i] on, of the elements that satisfy [p]. *)
Fixpoint positions (p : node -> bool) (i : nat) (l : list node) : list nat :=
  match l with
  | [] => []
  | n :: l' =>
      if p n then i :: positions p (S i) l' else positions p (S i) l'
  end.

Definition invalid_selector {A} (x : string) : outcome A :=
  Raise (OtherException "InvalidSelectorException"
                        ("invalid selector: " ++ x)).

Definition find_all (how : By) (x : string) (w : page)
  : outcome (list nat) :=
  match selector how x with
  | Some p => Ok (positions p O (nodes w))
  | None => invalid_selector x
  end.

Definition find_first (how : By) (x : string) (w : page) : outcome nat :=
  match find_all how x w with
  | Ok (i :: _) => Ok i
  | Ok [] => no_such x
  | Raise e => Raise e
  end.

Definition parent_of (e : nat) (how : By) (x : string) (w : page)
  : outcome nat :=
  match nth_error (nodes w) e with
  | None => stale
  | Some n =>
      match how with
      | By_XPATH =>
          if String.eqb x "./parent::*" then
            match n_parent n with
            | Some i => Ok i
            | None => no_such x
            end
          else invalid_selector x
      | _ => no_such x
      end
  end.

Definition read {A} (f : node -> A) (e : nat) (w : page) : outcome A :=
  match nth_error (nodes w) e with
  | Some n => Ok (f n)
  | None => stale
  end.

Fixpoint update (l : list node) (i : nat) (f : node -> node) : list node :=
  match l, i with
  | [], _ => []
  | n :: l', O => f n :: l'
  | n :: l', S i' => n :: update l' i' f
  end.

Definition with_nodes (w : page) (l : list node) : page :=
  mkPage l (replies w) (asked w) (clicked w) (url w) (shots w) (closed w).

Definition set_checked (b : bool) (n : node) : node :=
  mkNode (tag n) (n_type n) (n_id n) (n_name n) (n_placeholder n)
         (n_value n) (n_class n) (n_for n) (n_text n) b (n_options n)
         (n_parent n) (n_enabled n).

Definition set_value (v : option string) (n : node) : node :=
  mkNode (tag n) (n_type n) (n_id n) (n_name n) (n_placeholder n)
         v (n_class n) (n_for n) (n_text n) (n_checked n) (n_options n)
         (n_parent n) (n_enabled n).

(** Choosing a radio button releases the others of its group. *)
Definition release_group (group : option string) (n : node) : node :=
  if opt_is (n_type n) "radio"
     && match group, n_name n with
        | Some g, Some g' => String.eqb g g'
        | _, _ => false
        end
  then set_checked false n else n.

Definition not_interactable {A} : outcome A :=
  Raise (OtherException "ElementNotInteractableException"
                        "element not interactable").

Definition click_node (e : nat) (w : page) : outcome unit * page :=
  match nth_error (nodes w) e with
  | None => (stale, w)
  | Some n =>
      if negb (n_enabled n) then (not_interactable, w)
      else
        let l :=
          if opt_is (n_type n) "checkbox" then
            update (nodes w) e (set_checked (negb (n_checked n)))
          else if opt_is (n_type n) "radio" then
            update (map (release_group (n_name n)) (nodes w)) e
                   (set_checked true)
          else nodes w in
        (Ok tt,
         mkPage l (replies w) (asked w) (e :: clicked w) (url w) (shots w)
                (closed w))
  end.

Definition editable (n : node) : bool :=
  n_enabled n
  && (String.eqb (tag n) "textarea"
      || (String.eqb (tag n) "input"
          && negb (mem_str (fmt (n_type n))
                     ["checkbox"; "radio"; "submit"; "button"; "hidden"]))).

Definition clear_node (e : nat) (w : page) : outcome unit * page :=
  match nth_error (nodes w) e with
  | None => (stale, w)
  | Some n =>
      if editable n
      then (Ok tt, with_nodes w (update (nodes w) e (set_value (Some ""))))
      else (Raise (OtherException "InvalidElementStateException"
                                  "invalid element state"), w)
  end.

Definition type_into (e : nat) (t : string) (w : page)
  : outcome unit * page :=
  match nth_error (nodes w) e with
  | None => (stale, w)
  | Some n =>
      if editable n
      then (Ok tt,
            with_nodes w
              (update (nodes w) e
                 (set_value (Some (match n_value n with
                                   | Some v => v ++ t
                                   | None => t
                                   end)))))
      else (not_interactable, w)
  end.

Definition as_select (e : nat) (w : page) : outcome unit :=
  match nth_error (nodes w) e with
  | None => stale
  | Some n =>
      if String.eqb (tag n) "select" then Ok tt
      else Raise (OtherException "UnexpectedTagNameException"
                    ("Select only works on <select> elements, not on "
                       ++ tag n))
  end.

Definition choose (pick : string * string -> string) (e : nat) (t : string)
           (w : page) : outcome unit * page :=
  match nth_error (nodes w) e with
  | None => (stale, w)
  | Some n =>
      match List.find (fun o => String.eqb (pick o) t) (n_options n) with
      | Some o =>
          (Ok tt, with_nodes w (update (nodes w) e (set_value (Some (snd o)))))
      | None => (no_such ("Could not locate element with option: " ++ t), w)
      end
  end.

Definition ask (model system user : string) (max_tokens : Z) (w : page)
  : outcome (option string) * page :=
  match replies w with
  | r :: rest =>
      (r, mkPage (nodes w) rest (user :: asked w) (clicked w) (url w)
                 (shots w) (closed w))
  | [] =>
      (Raise (OtherException "APIConnectionError" "Connection error."),
       mkPage (nodes w) [] (user :: asked w) (clicked w) (url w)
              (shots w) (closed w))
  end.

Definition goto (u : string) (w : page) : outcome unit * page :=
  (Ok tt,
   mkPage (nodes w) (replies w) (asked w) (clicked w) u (shots w) (closed w)).

Definition shoot (path : string) (w : page) : outcome unit * page :=
  (Ok tt,
   mkPage (nodes w) (replies w) (asked w) (clicked w) (url w)
          (path :: shots w) (closed w)).

Definition close (w : page) : outcome unit * page :=
  (Ok tt,
   mkPage (nodes w) (replies w) (asked w) (clicked w) (url w) (shots w) true).

#[export] Instance browser : Browser page nat := {|
  driver_get := goto;
  page_source := fun w => Ok ("<html>" ++ url w ++ "</html>");
  find_element := find_first;
  find_elements := find_all;
  elem_find_element := parent_of;
  get_attribute := fun e name => read (attr name) e;
  text := read n_text;
  tag_name := read tag;
  is_selected := read n_checked;
  click := click_node;
  clear := clear_node;
  send_keys := type_into;
  Select_init := as_select;
  select_by_visible_text := choose fst;
  select_by_value := choose snd;
  chat_completions_create := ask;
  save_screenshot := shoot;
  now_stamp := fun _ => "20250101_000000";
  quit := close
|}.

(** ** Building pages *)



Definition checkbox (id : string) (ticked : bool) : node :=
  mkNode "input" (Some "checkbox") (Some id) None None (Some "on") None None
         "" ticked [] None true.

Definition radio (id group : string) (chosen : bool) : node :=
  mkNode "input" (Some "radio") (Some id) (Some group) None (Some "on") None
         None "" chosen [] None true.

Definition submit_button : node :=
  mkNode "button" (Some "submit") None None None None None None "Submit"
         false [] None true.

Definition open_page (l : list node) (script : list (outcome (option string)))
  : page :=
  mkPage l script [] [] "" [] false.

Definition start (l : list node) (script : list (outcome (option string)))
  : state page nat :=
  mkState (open_page l script) [].

(** The agent on a static page, with [JsonLite] as the JSON library. *)
Definition analyze (profile : value) : state page nat -> outcome value * state page nat :=
  analyze_form profile JsonLite.loads JsonLite.show.

Definition fill (mapping : value) : state page nat -> outcome unit * state page nat :=
  fill_form JsonLite.show mapping.

Definition submit (profile : value) : state page nat -> outcome bool * state page nat :=
  submit_form profile JsonLite.show.

Definition run_agent (profile : value) : state page nat -> outcome bool * state page nat :=
  run "form://static" profile JsonLite.loads JsonLite.show JsonLite.show.

(** ** Pages and replies used in the examples *)

Definition text_input (id value : string) : node :=
  mkNode "input" (Some "text") (Some id) None None (Some value) None None
         "" false [] None true.

(** A text field, a ticked checkbox, a radio button that is not chosen
    and a submit button. *)
Definition signup_page : list node :=
  [text_input "first_name" ""; checkbox "agree" true; radio "r1" "g" false;
   submit_button].


Definition lone_radio_page : list node := [radio "r1" "g" false].


Definition jane : string :=
  "{" ++ dq ++ "first_name" ++ dq ++ ": " ++ dq ++ "Jane" ++ dq ++ "}".

Definition tagged_fence_reply : string :=
  "```json" ++ nl ++ jane ++ nl ++ "```".

Definition plain_fence_reply : string :=
  "```" ++ nl ++ jane ++ nl ++ "```".

(** What the claim about a control in the snapshot says, read
    literally: some key holds the ticked state of a checkbox or radio
    button, or the value of any other control. *)
Definition recorded (d : list (string * value)) (n : node) : Prop :=
  exists k,
    dict_get d k
    = Some (if opt_is (n_type n) "checkbox" || opt_is (n_type n) "radio"
            then PyBool (n_checked n)
            else of_attr (n_value n)).

Definition is_control (n : node) : bool :=
  mem_str (tag n) ["input"; "select"; "textarea"].

(** A ticked checkbox at position [e] of a list of elements. *)
Definition ticked (l : list node) (e : nat) : Prop :=
  exists n, nth_error l e = Some n
            /\ n_type n = Some "checkbox" /\ n_checked n = true.

End StaticDom.

(** Further pages for the examples. *)
Module MorePages.
Import StaticDom.

Definition dropdown (id : string) (choices : list (string * string)) : node :=
  mkNode "select" (Some "select-one") (Some id) None None (Some "") None
         None "" false choices None true.

(** A text field with old content, a radio button, a dropdown and a
    submit button. *)
Definition survey_page : list node :=
  [text_input "first_name" "old"; radio "opt_in" "g" false;
   dropdown "state" [("Massachusetts", "MA"); ("New York", "NY")];
   submit_button].

(** A page without any submit control. *)
Definition bare_page : list node := [text_input "first_name" ""].

(** A page with one checkbox that is not ticked. *)
Definition unticked_page : list node := [checkbox "agree" false].

(** A mapping for the survey page; the last key resolves to nothing. *)
Definition survey_mapping : value :=
  PyDict [("first_name", PyStr "Jane"); ("opt_in", PyStr "yes");
          ("state", PyStr "New York"); ("ssn", PyStr "000")].

(** The sign-up page with a chat model that maps and then approves. *)
Definition happy_start : state page nat :=
  start signup_page [Ok (Some tagged_fence_reply); Ok (Some "PROCEED")].

(** The whole run from [happy_start]. *)
Definition happy_run : outcome bool * state page nat :=
  run "form://static" (PyDict []) JsonLite.loads JsonLite.show JsonLite.show
      happy_start.

End MorePages.

(* ================================================================== *)
(** * Properties of the agent, for every browser *)
(* ================================================================== *)

Section AgentFacts.

Context {W elem : Type} {B : Browser W elem}.

Variable form_url : string.
Variable data : value.
Variable json_loads : string -> option value.
Variable json_dumps : value -> string.
Variable repr : value -> string.

Local Abbreviation state := (state W elem).
Local Abbreviation event := (event W elem).

Ltac munfold :=
  unfold do_click, do_clear, do_send_keys, do_select_text, do_select_value,
    do_chat, log, emit, act, query, try_except, bind, ret, raise in *.


(** ** Skipping and exception handling in [fill_form] *)

Lemma fill_field_skips (field_id : string) (v : value) (s : state) :
  v = PyNone \/ v = PyStr "" ->
  fill_field repr field_id v s = (Ok tt, s).
Proof.
  intros [-> | ->]; reflexivity.
Qed.

Lemma fill_field_total (field_id : string) (v : value) (s : state) :
  exists s', fill_field repr field_id v s = (Ok tt, s').
Proof.
  unfold fill_field, try_except.
  destruct (fill_field_body repr field_id v s) as [[[] | e] s1].
  - now exists s1.
  - simpl. munfold. eauto.
Qed.


Lemma fill_items_step (field_id : string) (v : value)
      (rest : list (string * value)) (s : state) :
  fill_items repr ((field_id, v) :: rest) s
  = fill_items repr rest (snd (fill_field repr field_id v s)).
Proof.
  simpl. unfold bind.
  destruct (fill_field_total field_id v s) as [s1 ->].
  reflexivity.
Qed.

(** C6: a key whose value is [None] or [""] leaves everything as it was
    (no click, no clear, no text, not even a log line), and the pass over
    the mapping goes on exactly as if the key were not there. *)
Theorem skip_on_empty (field_id : string) (v : value)
        (before after : list (string * value)) (s : state) :
  v = PyNone \/ v = PyStr "" ->
  fill_field repr field_id v s = (Ok tt, s)
  /\ fill_items repr (before ++ (field_id, v) :: after) s
     = fill_items repr (before ++ after) s.
Proof.
  intros Hv. split.
  - now apply fill_field_skips.
  - revert s.
    induction before as [| [k x] before IH]; intros s.
    + simpl. unfold bind. now rewrite fill_field_skips.
    + rewrite <- !app_comm_cons, !fill_items_step. apply IH.
Qed.


(** ** The order of the lookups *)






(** ** Checkboxes *)

(** Case analysis on the next match of a run held in [H]. *)
Ltac exec H :=
  repeat (cbv beta iota delta [any_exception] in H; cbn [world trace] in H;
          match type of H with
          | context [match ?x with _ => _ end] =>
              lazymatch x with
              | context [match _ with _ => _ end] => fail
              | _ => destruct x eqn:?
              end
          end).

Lemma locate_frame (field_id : string) (s s1 : state)
      (r : outcome (option elem)) :
  locate field_id s = (r, s1) ->
  world s1 = world s
  /\ exists new, added s s1 new
                 /\ forall ev, In ev new -> is_mutation ev = false.
Proof.
  unfold locate, added. munfold. intros H. exec H;
    inversion H; subst; simpl; split; try reflexivity;
    first [ exists []; split; [reflexivity | now intros ev []]
          | eexists [_]; split; [reflexivity |];
            intros ev [<- | []]; reflexivity ].
Qed.

Lemma in_true_list_str (t : string) :
  in_true_list (PyStr t) = mem_str t ["yes"; "Y"; "true"].
Proof.
  unfold in_true_list, mem_str. simpl.
  now rewrite !orb_false_r, orb_assoc.
Qed.

(** C7 as amended: when the element a key resolves to reads as a
    checkbox whose ticked state equals the outcome of
    [value in [True, "yes", "Y", "true"]], processing the key touches
    nothing on the page: no click (and no other action) is issued.  The
    values that denote true are the ones that test accepts: the boolean
    [True], the numbers equal to it (1 and 1.0), and the strings "yes",
    "Y" and "true"; every other value denotes false. *)
Theorem checkbox_already_correct (field_id : string) (v : value)
        (s s1 : state) (e : elem) (b : bool) :
  locate field_id s = (Ok (Some e), s1) ->
  get_attribute e "type" (world s1) = Ok (Some "checkbox") ->
  is_selected e (world s1) = Ok b ->
  b = in_true_list v ->
  (exists s' new,
      fill_field repr field_id v s = (Ok tt, s')
      /\ world s' = world s
      /\ added s s' new
      /\ forall ev, In ev new -> is_mutation ev = false)
  /\ (forall b', in_true_list (PyBool b') = b')
  /\ (forall t, in_true_list (PyStr t) = mem_str t ["yes"; "Y"; "true"])
  /\ (forall z, in_true_list (PyInt z) = (z =? 1))
  /\ (forall f, in_true_list (PyFloat f) = PrimFloat.eqb f 1%float)
  /\ in_true_list PyNone = false
  /\ (forall l, in_true_list (PyList l) = false)
  /\ (forall d, in_true_list (PyDict d) = false).
Proof.
  intros Hloc Htype Hsel Hb.
  split; [| split; [| split; [| repeat split; intros;
                                unfold in_true_list; simpl;
                                now rewrite ?orb_false_r]]].
  - destruct (locate_frame _ _ _ _ Hloc) as [Hw [new0 [Hnew0 Hmut0]]].
    destruct (py_is_None v || py_eq_str v "") eqn:Hv.
    + exists s, []. unfold fill_field, try_except, fill_field_body.
      rewrite Hv. repeat split. now intros ev [].
    + exists (mkState (world s1)
                (EvLog INFO ("Filled field " ++ field_id ++ " with value: "
                               ++ py_str repr v) :: trace s1)),
        (EvLog INFO ("Filled field " ++ field_id ++ " with value: "
                       ++ py_str repr v) :: new0)%list.
      unfold fill_field, try_except, fill_field_body. rewrite Hv.
      unfold bind at 1. rewrite Hloc. unfold inject. munfold.
      rewrite Htype. cbv beta iota delta [opt_is]. rewrite String.eqb_refl.
      repeat split.
      * destruct (in_true_list v); [rewrite Hsel, Hb |]; reflexivity.
      * exact Hw.
      * unfold added in *. simpl. now rewrite Hnew0.
      * intros ev [<- | Hin]; [reflexivity | now apply Hmut0].
  - intros []; reflexivity.
  - apply in_true_list_str.
Qed.

Lemma safe_refl (s : state) : ticks_safe s s.
Proof.
  exists []. split; [reflexivity | split]; [now intros w e [] | auto].
Qed.

Lemma safe_trans (s1 s2 s3 : state) :
  ticks_safe s1 s2 -> ticks_safe s2 s3 -> ticks_safe s1 s3.
Proof.
  intros [n1 [H1 [C1 P1]]] [n2 [H2 [C2 P2]]].
  exists (n2 ++ n1)%list. unfold added in *. split; [| split].
  - now rewrite H2, H1, app_assoc.
  - intros w e Hin. apply in_app_or in Hin as [Hin | Hin]; eauto.
  - intros Hp e He. apply P2; auto.
Qed.

Lemma safe_log (w : W) (tr : list event) (l : level) (msg : string) :
  ticks_safe (mkState w tr) (mkState w (EvLog l msg :: tr)).
Proof.
  exists [EvLog l msg]. split; [reflexivity | split]; [| auto].
  intros w0 e [Hin | []]. discriminate.
Qed.

Lemma safe_click (w w' : W) (tr : list event) (e : elem)
      (r : outcome unit) :
  ~ checked_checkbox w e ->
  click e w = (r, w') ->
  ticks_safe (mkState w tr) (mkState w' (EvClick w e :: tr)).
Proof.
  intros Hn Hc. exists [EvClick w e]. split; [reflexivity | split].
  - intros w0 e0 [Hin | []]. now inversion Hin; subst.
  - intros Hp e0 He0. simpl in *.
    destruct (Hp w e0 He0) as [Hclick _].
    apply (Hclick e r w'); auto.
    intros ->. contradiction.
Qed.

Lemma safe_other (w w' : W) (tr : list event) (ev : event) :
  is_click ev = false ->
  (preserves_ticks ->
   forall e, checked_checkbox w e -> checked_checkbox w' e) ->
  ticks_safe (mkState w tr) (mkState w' (ev :: tr)).
Proof.
  intros Hev Hp. exists [ev]. split; [reflexivity | split]; [| exact Hp].
  intros w0 e0 [Heq | []]. subst ev. discriminate.
Qed.

Lemma safe_clear (w w' : W) (tr : list event) (e : elem) (r : outcome unit) :
  clear e w = (r, w') ->
  ticks_safe (mkState w tr) (mkState w' (EvClear e :: tr)).
Proof.
  intros H. apply safe_other; auto.
  intros Hp e0 He0. destruct (Hp w e0 He0) as (_ & Hc & _). eauto.
Qed.

Lemma safe_send_keys (w w' : W) (tr : list event) (e : elem) (t : string)
      (r : outcome unit) :
  send_keys e t w = (r, w') ->
  ticks_safe (mkState w tr) (mkState w' (EvSendKeys e t :: tr)).
Proof.
  intros H. apply safe_other; auto.
  intros Hp e0 He0. destruct (Hp w e0 He0) as (_ & _ & Hc & _). eauto.
Qed.

Lemma safe_select_text (w w' : W) (tr : list event) (e : elem) (t : string)
      (r : outcome unit) :
  select_by_visible_text e t w = (r, w') ->
  ticks_safe (mkState w tr) (mkState w' (EvSelectText e t :: tr)).
Proof.
  intros H. apply safe_other; auto.
  intros Hp e0 He0. destruct (Hp w e0 He0) as (_ & _ & _ & Hc & _). eauto.
Qed.

Lemma safe_select_value (w w' : W) (tr : list event) (e : elem) (t : string)
      (r : outcome unit) :
  select_by_value e t w = (r, w') ->
  ticks_safe (mkState w tr) (mkState w' (EvSelectValue e t :: tr)).
Proof.
  intros H. apply safe_other; auto.
  intros Hp e0 He0. destruct (Hp w e0 He0) as (_ & _ & _ & _ & Hc). eauto.
Qed.

(** Close a goal [ticks_safe s s'] where [s'] is [s] with a few events
    on top, each backed by a hypothesis about the action behind it. *)
Ltac safe_chain :=
  first
    [ apply safe_refl
    | eapply safe_trans; [| apply safe_log]; safe_chain
    | eapply safe_trans; [| eapply safe_clear; eassumption]; safe_chain
    | eapply safe_trans; [| eapply safe_send_keys; eassumption]; safe_chain
    | eapply safe_trans; [| eapply safe_select_text; eassumption]; safe_chain
    | eapply safe_trans; [| eapply safe_select_value; eassumption];
      safe_chain
    | eapply safe_trans; [| eapply safe_click; [| eassumption]];
      [safe_chain |] ].

Lemma inject_safe (field_id : string) (v : value) (e : elem)
      (s s' : state) (r : outcome unit) :
  inject repr field_id v e s = (r, s') -> ticks_safe s s'.
Proof.
  destruct s as [w tr]. unfold inject. munfold. cbn [world trace]. intros H.
  exec H; inversion H; subst; clear H; safe_chain.
  all: intros [Ht Hs];
    repeat match goal with
           | H1 : ?x = Ok _, H2 : ?x = Ok _ |- _ =>
               rewrite H1 in H2; inversion H2; subst; clear H2
           end;
    simpl in *; discriminate.
Qed.

Lemma fill_field_safe (field_id : string) (v : value) (s s' : state)
      (r : outcome unit) :
  fill_field repr field_id v s = (r, s') -> ticks_safe s s'.
Proof.
  unfold fill_field, fill_field_body, try_except.
  destruct (py_is_None v || py_eq_str v "").
  - unfold ret. intros H. inversion H. apply safe_refl.
  - unfold bind at 1.
    destruct (locate field_id s) as [[[e |] | x] s1] eqn:Hloc.
    + destruct (locate_frame _ _ _ _ Hloc) as [Hw [new [Hnew Hmut]]].
      assert (Hs1 : ticks_safe s s1).
      { exists new. split; [exact Hnew | split].
        - intros w e0 Hin Hc. apply Hmut in Hin. discriminate.
        - intros _ e0. now rewrite Hw. }
      destruct (inject repr field_id v e s1) as [[[] | x] s2] eqn:Hinj;
        apply inject_safe in Hinj.
      * intros H. inversion H; subst. now apply safe_trans with s1.
      * destruct s2 as [w2 tr2]. munfold. cbv beta iota delta [any_exception].
        intros H. inversion H; subst.
        apply safe_trans with s1; auto.
        eapply safe_trans; [exact Hinj | apply safe_log].
    + destruct (locate_frame _ _ _ _ Hloc) as [Hw [new [Hnew Hmut]]].
      unfold ret. intros H. inversion H; subst.
      exists new. split; [exact Hnew | split].
      * intros w e0 Hin Hc. apply Hmut in Hin. discriminate.
      * intros _ e0. now rewrite Hw.
    + destruct (locate_frame _ _ _ _ Hloc) as [Hw [new [Hnew Hmut]]].
      destruct s1 as [w1 tr1]. munfold. cbv beta iota delta [any_exception].
      intros H. inversion H; subst.
      eapply safe_trans; [| apply safe_log].
      exists new. split; [exact Hnew | split].
      * intros w e0 Hin Hc. apply Hmut in Hin. discriminate.
      * intros _ e0. now rewrite Hw.
Qed.

Lemma fill_items_safe (items : list (string * value)) (s s' : state)
      (r : outcome unit) :
  fill_items repr items s = (r, s') -> ticks_safe s s'.
Proof.
  revert s.
  induction items as [| [field_id v] rest IH]; intros s; simpl.
  - unfold ret. intros H. inversion H. apply safe_refl.
  - unfold bind.
    destruct (fill_field repr field_id v s) as [[[] | x] s1] eqn:Hf;
      apply fill_field_safe in Hf; intros H.
    + apply safe_trans with s1; eauto.
    + now inversion H; subst.
Qed.

(** C10: whatever the mapping, no click that [fill_form] issues lands on
    an element that reads as a ticked checkbox at that moment; and in a
    browser where a tick can only be removed by clicking the box itself,
    every checkbox ticked before the pass is still ticked after it. *)
Theorem ticked_checkbox_stays_ticked (mapping_strategy : value)
        (s s' : state) (r : outcome unit) :
  fill_form repr mapping_strategy s = (r, s') ->
  exists new,
    added s s' new
    /\ (forall w e, In (EvClick w e) new -> ~ checked_checkbox w e)
    /\ (preserves_ticks ->
        forall e, checked_checkbox (world s) e ->
                  checked_checkbox (world s') e).
Proof.
  intros H. change (ticks_safe s s').
  destruct s as [w tr]. unfold fill_form, items_of in H. munfold.
  cbn [world trace] in H.
  destruct mapping_strategy; try (inversion H; subst; apply safe_log).
  cbv beta iota in H.
  destruct (fill_items repr d
              (mkState w (EvLog INFO "Filling form with provided data..."
                            :: tr))) as [[[] | x] [w1 tr1]] eqn:Hf;
    apply fill_items_safe in Hf; cbn [world trace] in H;
    inversion H; subst.
  - eapply safe_trans; [| apply safe_log].
    eapply safe_trans; [apply safe_log | exact Hf].
  - eapply safe_trans; [apply safe_log | exact Hf].
Qed.


(** ** The submission gate *)

Lemma guarded_nil : clicks_guarded (@nil event).
Proof.
  intros post w e pre H. now destruct post.
Qed.

Lemma guarded_cons_other (ev : event) (new : list event) :
  is_click ev = false ->
  clicks_guarded new -> clicks_guarded (ev :: new).
Proof.
  intros Hev Hg post w e pre H.
  destruct post as [| x post]; simpl in H; inversion H; subst.
  - discriminate.
  - eapply Hg. reflexivity.
Qed.

Lemma guarded_cons_click (w : W) (e : elem) (new : list event) :
  (exists ev, In ev new /\ is_proceed_reply ev = true) ->
  clicks_guarded new -> clicks_guarded (EvClick w e :: new).
Proof.
  intros Hp Hg post w0 e0 pre H.
  destruct post as [| x post]; simpl in H; inversion H; subst.
  - exact Hp.
  - eapply Hg. reflexivity.
Qed.

Lemma guarded_tail (ev : event) (new : list event) :
  clicks_guarded (ev :: new) -> clicks_guarded new.
Proof.
  intros Hg post w e pre H.
  apply (Hg (ev :: post) w e pre). now rewrite H.
Qed.

Lemma guarded_app (newer older : list event) :
  clicks_guarded newer -> clicks_guarded older ->
  clicks_guarded (newer ++ older).
Proof.
  induction newer as [| ev newer IH]; intros Hn Ho; simpl; auto.
  pose proof (guarded_tail _ _ Hn) as Ht.
  destruct ev;
    try (apply guarded_cons_other; [reflexivity | now apply IH]).
  apply guarded_cons_click; [| now apply IH].
  destruct (Hn [] w e newer eq_refl) as [ev [Hin Hev]].
  exists ev. split; [apply in_or_app; now left | exact Hev].
Qed.

Lemma read_control_pure (form_data : list (string * value)) (e : elem)
      (s s' : state) (r : outcome (list (string * value))) :
  read_control form_data e s = (r, s') -> s' = s.
Proof.
  unfold read_control. munfold. intros H.
  exec H; now inversion H.
Qed.

Lemma read_controls_pure (form_elements : list elem)
      (form_data : list (string * value)) (s s' : state)
      (r : outcome (list (string * value))) :
  read_controls form_data form_elements s = (r, s') -> s' = s.
Proof.
  revert form_data s.
  induction form_elements as [| e rest IH]; intros form_data s; simpl.
  - unfold ret. now inversion 1.
  - unfold bind.
    destruct (read_control form_data e s) as [[d | x] s1] eqn:H1;
      apply read_control_pure in H1; subst s1.
    + apply IH.
    + now inversion 1.
Qed.

Lemma snapshot_pure (s s' : state) (r : outcome (list (string * value))) :
  snapshot s = (r, s') -> s' = s.
Proof.
  unfold snapshot. unfold bind, query.
  destruct (find_elements By_XPATH controls_xpath (world s)).
  - apply read_controls_pure.
  - now inversion 1.
Qed.

Lemma added_refl (w : W) (tr : list event) (w' : W) :
  added (mkState w tr) (mkState w' tr) [].
Proof. reflexivity. Qed.

Lemma added_cons (s : state) (w' : W) (tr' new : list event)
      (ev : event) :
  added s (mkState w' tr') new ->
  added s (mkState w' (ev :: tr')) (ev :: new).
Proof.
  unfold added. simpl. now intros ->.
Qed.

(** One selector: the iteration never raises, its clicks are guarded,
    and it makes the method return [True] only after a click. *)
Lemma try_selector_gate (selector : string) (s : state) :
  exists ob s' new,
    try_selector data json_dumps selector s = (Ok ob, s')
    /\ added s s' new
    /\ clicks_guarded new
    /\ (ob = Some true -> exists w e, In (EvClick w e) new).
Proof.
  destruct s as [w tr].
  destruct (try_selector data json_dumps selector (mkState w tr))
    as [r s'] eqn:H.
  unfold try_selector, attempt in H. munfold. cbn [world trace] in H.
  exec H;
    repeat match goal with
           | Hs : snapshot _ = (_, ?s1) |- _ =>
               apply snapshot_pure in Hs; subst s1
           end;
    cbn [world trace] in *; inversion H; subst; clear H;
    do 3 eexists;
    (split; [reflexivity |]);
    (split; [repeat eapply added_cons; apply added_refl |]);
    (split;
     [ repeat first
         [ apply guarded_nil
         | apply guarded_cons_other; [reflexivity |]
         | apply guarded_cons_click;
           [eexists; split; [right; left; reflexivity | assumption] |] ]
     | intros Hob; try discriminate Hob; do 2 eexists; simpl; eauto ]).
Qed.

Lemma submit_loop_gate (selectors : list string) (s : state) :
  exists b s' new,
    submit_loop data json_dumps selectors s = (Ok b, s')
    /\ added s s' new
    /\ clicks_guarded new
    /\ (b = true -> exists w e, In (EvClick w e) new).
Proof.
  revert s.
  induction selectors as [| selector rest IH]; intros s; simpl.
  - destruct s as [w tr]. munfold. cbn [world trace].
    do 3 eexists. split; [reflexivity |].
    split; [eapply added_cons, added_refl |].
    split; [| discriminate].
    apply guarded_cons_other; [reflexivity | apply guarded_nil].
  - unfold bind.
    destruct (try_selector_gate selector s)
      as (ob & s1 & new1 & -> & Hadd1 & Hg1 & Hc1).
    destruct ob as [b |].
    + exists b, s1, new1. unfold ret. repeat split; auto.
      intros ->. now apply Hc1.
    + destruct (IH s1) as (b & s2 & new2 & -> & Hadd2 & Hg2 & Hc2).
      exists b, s2, (new2 ++ new1)%list. unfold added in *.
      split; [reflexivity |].
      split; [now rewrite Hadd2, Hadd1, app_assoc |].
      split; [now apply guarded_app |].
      intros Hb. destruct (Hc2 Hb) as (w & e & Hin).
      exists w, e. apply in_or_app. now left.
Qed.

(** C2: [submit_form] always returns a boolean.  Among the events of the
    run, every click comes after a reply of the chat model that contains
    "PROCEED".  When the run saw no such reply (the model answered
    something else, the call raised, or no selector found a control so
    that the model was never asked), the result is [False] and no click
    was issued. *)
Theorem submit_gate_safe (s : state) :
  exists b s' new,
    submit_form data json_dumps s = (Ok b, s')
    /\ added s s' new
    /\ clicks_guarded new
    /\ ((forall ev, In ev new -> is_proceed_reply ev = false) ->
        b = false /\ forall ev, In ev new -> is_click ev = false).
Proof.
  destruct s as [w tr]. unfold submit_form. munfold. cbn [world trace].
  destruct (submit_loop_gate submit_selectors
              (mkState w (EvLog INFO "Looking for submit button..." :: tr)))
    as (b & s' & new & -> & Hadd & Hg & Hc).
  exists b, s', (new ++ [EvLog INFO "Looking for submit button..."])%list.
  assert (Hg' : clicks_guarded
                  (new ++ [EvLog INFO "Looking for submit button..."])).
  { apply guarded_app; auto.
    apply guarded_cons_other; [reflexivity | apply guarded_nil]. }
  split; [reflexivity |].
  split; [unfold added in *; simpl in *; now rewrite Hadd, <- app_assoc |].
  split; [exact Hg' |].
  intros Hno.
  assert (Hnoclick : forall ev,
             In ev (new ++ [EvLog INFO "Looking for submit button..."]) ->
             is_click ev = false).
  { intros ev Hin. destruct ev; try reflexivity.
    apply in_split in Hin as (post & pre & Heq).
    destruct (Hg' post w0 e pre Heq) as (ev & Hev & Hp).
    rewrite Hno in Hp; [discriminate |].
    rewrite Heq. apply in_or_app. right. now right. }
  split; [| exact Hnoclick].
  destruct b; [| reflexivity].
  destruct (Hc eq_refl) as (w0 & e & Hin).
  assert (Hin' : In (EvClick w0 e)
                    (new ++ [EvLog INFO "Looking for submit button..."])).
  { apply in_or_app. now left. }
  apply Hnoclick in Hin'. discriminate.
Qed.

(** ** The snapshot of the form *)

Lemma dict_get_set_same (d : list (string * value)) (k : string)
      (v : value) :
  dict_get (dict_set d k v) k = Some v.
Proof.
  induction d as [| [k' v'] d IH]; simpl.
  - now rewrite String.eqb_refl.
  - destruct (String.eqb k' k) eqn:E; simpl.
    + now rewrite String.eqb_refl.
    + now rewrite E.
Qed.

Lemma dict_get_set_other (d : list (string * value)) (k k0 : string)
      (v : value) :
  k <> k0 ->
  dict_get (dict_set d k v) k0 = dict_get d k0.
Proof.
  intros Hk.
  induction d as [| [k' v'] d IH]; simpl.
  - apply String.eqb_neq in Hk. now rewrite Hk.
  - destruct (String.eqb k' k) eqn:E; simpl.
    + apply String.eqb_eq in E. subst k'.
      apply String.eqb_neq in Hk. now rewrite Hk.
    + destruct (String.eqb k' k0); auto.
Qed.

Lemma truthy_fmt (a : option string) :
  truthy a = true -> a = Some (fmt a).
Proof.
  now destruct a.
Qed.

Lemma read_control_entry (form_data d' : list (string * value)) (e : elem)
      (s s' : state) (k : string) :
  read_control form_data e s = (Ok d', s') ->
  (key_of (world s) e = Some k ->
   forall v, entry_of (world s) e = Some v -> dict_get d' k = Some v)
  /\ (key_of (world s) e = Some k -> entry_of (world s) e = None ->
      dict_get d' k = dict_get form_data k)
  /\ (key_of (world s) e <> Some k ->
      dict_get d' k = dict_get form_data k).
Proof.
  unfold read_control, key_of, entry_of. munfold. intros H.
  exec H; inversion H; subst; clear H;
    repeat match goal with
           | Hx : Ok _ = Ok _ |- _ => inversion Hx; subst; clear Hx
           end;
    try discriminate;
    repeat match goal with
           | Hb : get_attribute _ _ _ = _ |- _ => rewrite Hb
           | Hb : is_selected _ _ = _ |- _ => rewrite Hb
           | Hb : opt_is _ _ = _ |- _ => rewrite Hb
           | Hb : truthy _ = _ |- _ => rewrite Hb
           end;
    (split; [| split]).
  all: try (intros Hk v Hv; inversion Hv; subst; simpl;
            apply dict_get_set_same).
  all: try (intros Hk Hv; discriminate Hv).
  all: try (intros Hk;
            match goal with
            | Ht : truthy ?a = true |- _ =>
                apply dict_get_set_other; intros Heq; apply Hk;
                rewrite (truthy_fmt a Ht); now rewrite Heq
            end).
  all: try (intros Hk; discriminate Hk).
  all: intros; reflexivity.
Qed.

Lemma read_controls_none (form_elements : list elem)
      (form_data d' : list (string * value)) (s s' : state) (k : string) :
  read_controls form_data form_elements s = (Ok d', s') ->
  (forall e, In e form_elements ->
             key_of (world s) e = Some k -> entry_of (world s) e = None) ->
  dict_get d' k = dict_get form_data k.
Proof.
  revert form_data.
  induction form_elements as [| e rest IH]; intros form_data; simpl.
  - unfold ret. now inversion 1.
  - unfold bind.
    destruct (read_control form_data e s) as [[d1 | x] s1] eqn:H1;
      [| discriminate].
    pose proof (read_control_pure _ _ _ _ _ H1). subst s1.
    destruct (read_control_entry _ _ _ _ _ k H1) as (_ & Hnone & Hother).
    intros H Hall. rewrite (IH d1 H).
    + destruct (key_of (world s) e) as [k' |] eqn:Hk;
        [destruct (string_dec k' k) as [-> | Hne] |].
      * apply Hnone; [reflexivity |]. apply Hall; [now left | exact Hk].
      * apply Hother. congruence.
      * apply Hother. discriminate.
    + intros e' Hin. apply Hall. now right.
Qed.

Lemma read_controls_last (before after : list elem) (e : elem)
      (form_data d' : list (string * value)) (s s' : state) (k : string)
      (v : value) :
  read_controls form_data (before ++ e :: after) s = (Ok d', s') ->
  key_of (world s) e = Some k ->
  entry_of (world s) e = Some v ->
  (forall e', In e' after ->
              key_of (world s) e' = Some k -> entry_of (world s) e' = None) ->
  dict_get d' k = Some v.
Proof.
  revert form_data.
  induction before as [| e0 before IH]; intros form_data; simpl; unfold bind.
  - destruct (read_control form_data e s) as [[d1 | x] s1] eqn:H1;
      [| discriminate].
    pose proof (read_control_pure _ _ _ _ _ H1). subst s1.
    destruct (read_control_entry _ _ _ _ _ k H1) as (Hsame & _ & _).
    intros H Hk Hv Hafter.
    rewrite (read_controls_none _ _ _ _ _ _ H Hafter). now apply Hsame.
  - destruct (read_control form_data e0 s) as [[d1 | x] s1] eqn:H1;
      [| discriminate].
    pose proof (read_control_pure _ _ _ _ _ H1). subst s1.
    apply IH.
Qed.

(** C3 as amended: the snapshot is keyed by [id], or by [name] when the
    [id] is empty.  Under a key it holds what the last control with that
    key filed: the ticked state of a checkbox, [True] for a chosen radio
    button, the value of any other control.  A radio button that is not
    chosen files nothing, a control with neither [id] nor [name] has no
    key, and a key under which nothing was filed is absent. *)
Theorem snapshot_contents (s s' : state) (form_data : list (string * value))
        (form_elements : list elem) (k : string) :
  find_elements By_XPATH controls_xpath (world s) = Ok form_elements ->
  snapshot s = (Ok form_data, s') ->
  (forall before e after v,
      form_elements = (before ++ e :: after)%list ->
      key_of (world s) e = Some k ->
      entry_of (world s) e = Some v ->
      (forall e', In e' after ->
                  key_of (world s) e' = Some k ->
                  entry_of (world s) e' = None) ->
      dict_get form_data k = Some v)
  /\ ((forall e, In e form_elements ->
                 key_of (world s) e = Some k ->
                 entry_of (world s) e = None) ->
      dict_get form_data k = None).
Proof.
  intros Hfind. unfold snapshot, bind, query. rewrite Hfind. intros H.
  split.
  - intros before e after v -> Hk Hv Hafter.
    exact (read_controls_last _ _ _ _ _ _ _ _ _ H Hk Hv Hafter).
  - intros Hall. now rewrite (read_controls_none _ _ _ _ _ _ H Hall).
Qed.

(** ** Cleaning the reply *)

Lemma append_assoc (a b c : string) : (a ++ b) ++ c = a ++ b ++ c.
Proof.
  induction a as [| x a IH]; simpl; [reflexivity | now rewrite IH].
Qed.

Lemma len_append (a b : string) : len (a ++ b) = len a + len b.
Proof.
  unfold len. induction a as [| x a IH]; simpl String.length.
  - reflexivity.
  - rewrite !Nat2Z.inj_succ. lia.
Qed.

Lemma len_nonneg (a : string) : 0 <= len a.
Proof.
  unfold len. lia.
Qed.

Lemma lstrip_app_space (a b : string) :
  all_space a = true -> lstrip (a ++ b) = lstrip b.
Proof.
  induction a as [| x a IH]; simpl; [reflexivity |].
  intros H. apply andb_prop in H as [Hx Ha]. rewrite Hx. now apply IH.
Qed.

Lemma rstrip_space (a : string) : all_space a = true -> rstrip a = "".
Proof.
  induction a as [| x a IH]; simpl; [reflexivity |].
  intros H. apply andb_prop in H as [Hx Ha]. now rewrite IH, Hx.
Qed.

Lemma rstrip_app_space (a t : string) :
  all_space t = true -> rstrip (a ++ t) = rstrip a.
Proof.
  intros Ht.
  induction a as [| x a IH]; simpl.
  - now apply rstrip_space.
  - now rewrite IH.
Qed.

Lemma rstrip_app_keep (a b : string) :
  rstrip b <> "" -> rstrip (a ++ b) = a ++ rstrip b.
Proof.
  intros Hb.
  induction a as [| x a IH]; simpl; [reflexivity |].
  rewrite IH.
  destruct (a ++ rstrip b) eqn:E; [| reflexivity].
  destruct a; simpl in E; [contradiction | discriminate].
Qed.

Lemma find_newline (a b : string) :
  contains a nl = false -> find (a ++ nl ++ b) nl = len a.
Proof.
  induction a as [| x a IH]; intros H.
  - reflexivity.
  - simpl in H. apply orb_false_elim in H as [Hx Ha].
    change (find (String x a ++ nl ++ b) nl)
      with (if startswith (String x (a ++ nl ++ b)) nl then 0
            else let r := find (a ++ nl ++ b) nl in
                 if r <? 0 then -1 else r + 1).
    assert (Hs : startswith (String x (a ++ nl ++ b)) nl = false).
    { simpl in *. now rewrite andb_true_r in *. }
    rewrite Hs, (IH Ha). cbv zeta.
    pose proof (len_nonneg a).
    destruct (len a <? 0) eqn:E; [apply Z.ltb_lt in E; lia |].
    unfold len. simpl String.length. rewrite Nat2Z.inj_succ. lia.
Qed.

Lemma rfind_fence (a : string) : rfind (a ++ "```") "```" = len a.
Proof.
  induction a as [| x a IH].
  - reflexivity.
  - change (rfind (String x a ++ "```") "```")
      with (let r := rfind (a ++ "```") "```" in
            if 0 <=? r then r + 1
            else if startswith (String x (a ++ "```")) "```" then 0 else -1).
    rewrite IH. cbv zeta.
    pose proof (len_nonneg a).
    destruct (0 <=? len a) eqn:E; [| apply Z.leb_gt in E; lia].
    unfold len. simpl String.length. rewrite Nat2Z.inj_succ. lia.
Qed.

Lemma substring_prefix (b c : string) :
  String.substring 0 (String.length b) (b ++ c) = b.
Proof.
  induction b as [| x b IH]; simpl.
  - now destruct c.
  - now rewrite IH.
Qed.

Lemma substring_middle (a b c : string) :
  String.substring (String.length a) (String.length b) (a ++ b ++ c) = b.
Proof.
  induction a as [| x a IH]; simpl.
  - apply substring_prefix.
  - exact IH.
Qed.

Lemma slice_middle (a b c : string) :
  slice (a ++ b ++ c) (len a) (len a + len b) = b.
Proof.
  unfold slice, slice_bound.
  rewrite !len_append.
  pose proof (len_nonneg a). pose proof (len_nonneg b).
  pose proof (len_nonneg c).
  destruct (len a <? 0) eqn:E1; [apply Z.ltb_lt in E1; lia |].
  destruct (len a + len b <? 0) eqn:E2; [apply Z.ltb_lt in E2; lia |].
  rewrite !Z.min_l by lia.
  replace (len a + len b - len a) with (len b) by lia.
  unfold len. rewrite !Nat2Z.id.
  apply substring_middle.
Qed.

(** A reply that opens with the tagged fence, closes with a fence and
    has something in between is reduced to what is in between. *)
Lemma clean_reply_fenced (lead info body trail : string) :
  all_space lead = true ->
  all_space trail = true ->
  contains info nl = false ->
  body <> "" ->
  clean_reply (lead ++ "```json" ++ info ++ nl ++ body ++ "```" ++ trail)
  = strip body.
Proof.
  intros Hlead Htrail Hinfo Hbody.
  unfold clean_reply.
  assert (Hstrip :
            strip (lead ++ "```json" ++ info ++ nl ++ body ++ "```" ++ trail)
            = "```json" ++ info ++ nl ++ body ++ "```").
  { unfold strip. rewrite lstrip_app_space by exact Hlead.
    change (lstrip ("```json" ++ info ++ nl ++ body ++ "```" ++ trail))
      with ("```json" ++ info ++ nl ++ body ++ "```" ++ trail).
    replace ("```json" ++ info ++ nl ++ body ++ "```" ++ trail)
      with ((("```json" ++ info ++ nl ++ body) ++ "```") ++ trail)
      by now rewrite !append_assoc.
    rewrite rstrip_app_space by exact Htrail.
    rewrite rstrip_app_keep by discriminate.
    change (rstrip "```") with "```".
    now rewrite !append_assoc. }
  rewrite Hstrip.
  change (startswith ("```json" ++ info ++ nl ++ body ++ "```") "```json")
    with true.
  cbv iota.
  assert (Hfind :
            find ("```json" ++ info ++ nl ++ body ++ "```") nl
            = len ("```json" ++ info)).
  { replace ("```json" ++ info ++ nl ++ body ++ "```")
      with (("```json" ++ info) ++ nl ++ body ++ "```")
      by now rewrite !append_assoc.
    apply find_newline. exact Hinfo. }
  assert (Hrfind :
            rfind ("```json" ++ info ++ nl ++ body ++ "```") "```"
            = len ("```json" ++ info) + 1 + len body).
  { replace ("```json" ++ info ++ nl ++ body ++ "```")
      with ((("```json" ++ info) ++ nl ++ body) ++ "```")
      by now rewrite !append_assoc.
    rewrite rfind_fence, !len_append. change (len nl) with 1. lia. }
  rewrite Hfind, Hrfind. cbv zeta.
  assert (Hlen : 0 < len body).
  { destruct body; [contradiction |].
    unfold len. simpl String.length. lia. }
  destruct (len ("```json" ++ info) + 1 + len body
            >? len ("```json" ++ info) + 1) eqn:E;
    [| rewrite Z.gtb_ltb in E; apply Z.ltb_ge in E; lia].
  f_equal.
  replace ("```json" ++ info ++ nl ++ body ++ "```")
    with ((("```json" ++ info) ++ nl) ++ body ++ "```")
    by now rewrite !append_assoc.
  replace (len ("```json" ++ info) + 1)
    with (len (("```json" ++ info) ++ nl))
    by (rewrite (len_append _ nl); reflexivity).
  apply slice_middle.
Qed.

(** ** The mapping phase *)

Lemma analyze_form_after_scan (s s1 : state) (element_details : list value) :
  introspect s = (Ok element_details, s1) ->
  analyze_form data json_loads json_dumps s
  = try_except (query_llm data json_loads json_dumps element_details)
      any_exception
      (fun e => bind (log ERROR ("Error in LLM request: " ++ exn_str e))
                     (fun _ => ret PyNone))
      (sending s1).
Proof.
  intros H. unfold analyze_form. unfold bind at 1. rewrite H.
  reflexivity.
Qed.

(** C4: when the request to the chat model raises, [analyze_form] logs
    the error and returns [None]; nothing else happens, whatever the JSON
    decoder is: no parse is attempted and no fallback is called. *)
Theorem transport_failure_yields_None (s s1 : state)
        (element_details : list value) (e : exn) (w' : W) :
  introspect s = (Ok element_details, s1) ->
  chat_completions_create "gpt-4-turbo" mapping_system
    (mapping_prompt data json_dumps element_details) 2000 (world s1)
  = (Raise e, w') ->
  analyze_form data json_loads json_dumps s
  = (Ok PyNone,
     mkState w'
       (EvLog ERROR ("Error in LLM request: " ++ exn_str e)
        :: EvChat (mapping_prompt data json_dumps element_details) (Raise e)
        :: EvLog INFO "Sending request to LLM..."
        :: trace s1)).
Proof.
  intros Hscan Hchat.
  rewrite (analyze_form_after_scan _ _ _ Hscan).
  unfold sending, query_llm. munfold. cbn [world trace].
  now rewrite Hchat.
Qed.

(** C1, as the code has it: when the reply does not parse, the handler
    looks up [create_fallback_mapping], which the class does not define;
    the [AttributeError] is caught by the outer handler, so that
    [analyze_form] returns [None] instead of a mapping, and [fill_form]
    raises on that result. *)
Theorem unparsable_reply_yields_None (s s1 : state)
        (element_details : list value) (raw : string) (w' : W) :
  introspect s = (Ok element_details, s1) ->
  chat_completions_create "gpt-4-turbo" mapping_system
    (mapping_prompt data json_dumps element_details) 2000 (world s1)
  = (Ok (Some raw), w') ->
  json_loads (clean_reply raw) = None ->
  exists s',
    analyze_form data json_loads json_dumps s = (Ok PyNone, s')
    /\ world s' = w'
    /\ hd_error (trace s')
       = Some (EvLog ERROR
                 "Error in LLM request: 'FormFillingAgent' object has no attribute 'create_fallback_mapping'")
    /\ exists s'',
        fill_form repr PyNone s'
        = (Raise (AttributeError
                    "'NoneType' object has no attribute 'items'"), s'').
Proof.
  intros Hscan Hchat Hparse.
  rewrite (analyze_form_after_scan _ _ _ Hscan).
  unfold sending, query_llm. munfold. cbn [world trace].
  rewrite Hchat. cbv beta iota. rewrite Hparse.
  eexists. split; [reflexivity |].
  split; [reflexivity |].
  split; [reflexivity |].
  eexists. reflexivity.
Qed.

(** C8 as amended: a reply that parses, after cleaning, is returned as
    parsed, with no check against the elements found.  Cleaning strips a
    fence only when the reply opens with the tagged fence: a reply made
    of the tagged fence line, a non-empty body and a closing fence is
    reduced to its body; a reply that does not open with the tagged fence
    is parsed as it is, less the surrounding whitespace. *)
Theorem fenced_reply_parsed (s s1 : state) (element_details : list value)
        (raw : string) (w' : W) :
  introspect s = (Ok element_details, s1) ->
  chat_completions_create "gpt-4-turbo" mapping_system
    (mapping_prompt data json_dumps element_details) 2000 (world s1)
  = (Ok (Some raw), w') ->
  (forall mapping_strategy,
      json_loads (clean_reply raw) = Some mapping_strategy ->
      exists s',
        analyze_form data json_loads json_dumps s
        = (Ok mapping_strategy, s')
        /\ world s' = w')
  /\ (forall lead info body trail,
         all_space lead = true ->
         all_space trail = true ->
         contains info nl = false ->
         body <> "" ->
         raw = lead ++ "```json" ++ info ++ nl ++ body ++ "```" ++ trail ->
         clean_reply raw = strip body)
  /\ (startswith (strip raw) "```json" = false ->
      clean_reply raw = strip raw).
Proof.
  intros Hscan Hchat. split; [| split].
  - intros mapping_strategy Hparse.
    rewrite (analyze_form_after_scan _ _ _ Hscan).
    unfold sending, query_llm. munfold. cbn [world trace].
    rewrite Hchat. cbv beta iota. rewrite Hparse.
    eexists. split; reflexivity.
  - intros lead info body trail Hlead Htrail Hinfo Hbody ->.
    now apply clean_reply_fenced.
  - intros H. unfold clean_reply. now rewrite H.
Qed.

End AgentFacts.

(* ================================================================== *)
(** * The agent on static pages *)
(* ================================================================== *)

Module StaticFacts.
Import StaticDom.

Lemma nth_update (l : list node) (i j : nat) (f : node -> node) :
  nth_error (update l i f) j
  = if Nat.eqb i j then option_map f (nth_error l j) else nth_error l j.
Proof.
  revert i j.
  induction l as [| n l IH]; intros i j; simpl.
  - destruct j; simpl; now destruct (Nat.eqb i _).
  - destruct i, j; simpl; auto.
Qed.

Lemma checked_ticked (w : page) (e : nat) :
  checked_checkbox w e <-> ticked (nodes w) e.
Proof.
  unfold checked_checkbox, ticked. simpl. unfold read.
  destruct (nth_error (nodes w) e) as [n |].
  - split.
    + intros [Ht Hc]. exists n.
      injection Ht as Ht. injection Hc as Hc.
      repeat split; assumption.
    + intros (n' & Hn & Ht & Hc). injection Hn as <-.
      change (attr "type" n) with (n_type n). now rewrite Ht, Hc.
  - split.
    + intros [Ht _]. discriminate.
    + intros (n' & Hn & _). discriminate.
Qed.

Lemma ticked_update_value (l : list node) (e i : nat) (v : option string) :
  ticked l e -> ticked (update l i (set_value v)) e.
Proof.
  intros (n & Hn & Ht & Hc). unfold ticked.
  rewrite nth_update, Hn.
  destruct (Nat.eqb i e); [exists (set_value v n) | exists n]; auto.
Qed.

Lemma ticked_update_other (l : list node) (e i : nat) (f : node -> node) :
  i <> e -> ticked l e -> ticked (update l i f) e.
Proof.
  intros Hne (n & Hn & Ht & Hc). unfold ticked.
  rewrite nth_update. apply Nat.eqb_neq in Hne. rewrite Hne. eauto.
Qed.

Lemma ticked_release (l : list node) (e : nat) (g : option string) :
  ticked l e -> ticked (map (release_group g) l) e.
Proof.
  intros (n & Hn & Ht & Hc). exists n.
  rewrite nth_error_map, Hn. simpl.
  unfold release_group. rewrite Ht. simpl. auto.
Qed.

(** The static page keeps its ticks. *)
Lemma static_preserves_ticks : preserves_ticks (W := page) (elem := nat).
Proof.
  intros w e He. apply checked_ticked in He.
  split; [| split; [| split; [| split]]].
  - intros e' r w' Hne H. apply checked_ticked.
    change (click_node e' w = (r, w')) in H. unfold click_node in H.
    destruct (nth_error (nodes w) e') as [n |];
      [| now injection H as _ <-].
    destruct (negb (n_enabled n)); [now injection H as _ <- |].
    injection H as _ <-. cbn [nodes].
    destruct (opt_is (n_type n) "checkbox");
      [now apply ticked_update_other |].
    destruct (opt_is (n_type n) "radio"); auto.
    apply ticked_update_other; auto. now apply ticked_release.
  - intros e' r w' H. apply checked_ticked.
    change (clear_node e' w = (r, w')) in H. unfold clear_node in H.
    destruct (nth_error (nodes w) e') as [n |];
      [| now injection H as _ <-].
    destruct (editable n); injection H as _ <-; cbn [nodes with_nodes]; auto.
    now apply ticked_update_value.
  - intros e' t r w' H. apply checked_ticked.
    change (type_into e' t w = (r, w')) in H. unfold type_into in H.
    destruct (nth_error (nodes w) e') as [n |];
      [| now injection H as _ <-].
    destruct (editable n); injection H as _ <-; cbn [nodes with_nodes]; auto.
    now apply ticked_update_value.
  - intros e' t r w' H. apply checked_ticked.
    change (choose fst e' t w = (r, w')) in H. unfold choose in H.
    destruct (nth_error (nodes w) e') as [n |];
      [| now injection H as _ <-].
    destruct (List.find _ _); injection H as _ <-;
      cbn [nodes with_nodes]; auto.
    now apply ticked_update_value.
  - intros e' t r w' H. apply checked_ticked.
    change (choose snd e' t w = (r, w')) in H. unfold choose in H.
    destruct (nth_error (nodes w) e') as [n |];
      [| now injection H as _ <-].
    destruct (List.find _ _); injection H as _ <-;
      cbn [nodes with_nodes]; auto.
    now apply ticked_update_value.
Qed.

(** ** Whole runs *)

(** The model maps the name, the gate approves: the field is filled and
    the submit button is clicked once. *)
Example run_fills_and_submits :
  let '(r, s) :=
    run_agent (PyDict [("first_name", PyStr "Jane")])
      (start signup_page [Ok (Some tagged_fence_reply); Ok (Some "PROCEED")])
  in
  r = Ok true
  /\ clicked (world s) = [3%nat]
  /\ option_map n_value (nth_error (nodes (world s)) 0) = Some (Some "Jane")
  /\ closed (world s) = true.
Proof.
  vm_compute. repeat split.
Qed.

(** The model answers in prose: the run ends in the [AttributeError] of
    [fill_form], nothing is clicked, and the browser is closed. *)
Example run_breaks_on_prose :
  let '(r, s) :=
    run_agent (PyDict [("first_name", PyStr "Jane")])
      (start signup_page
             [Ok (Some "Sorry, I cannot help with that.");
              Ok (Some "PROCEED")])
  in
  r = Raise (AttributeError "'NoneType' object has no attribute 'items'")
  /\ clicked (world s) = []
  /\ closed (world s) = true.
Proof.
  vm_compute. repeat split.
Qed.

(** The same mapping in a fence without the tag: the body is valid JSON,
    but the decoder is given the fences too. *)
Example plain_fence_is_not_parsed :
  JsonLite.loads jane = Some (PyDict [("first_name", PyStr "Jane")])
  /\ clean_reply plain_fence_reply = plain_fence_reply
  /\ fst (analyze (PyDict [])
                  (start signup_page [Ok (Some plain_fence_reply)]))
     = Ok PyNone.
Proof.
  vm_compute. repeat split.
Qed.

(** ** The theorems at work on concrete pages *)

(** C1 on the sign-up page: the model answers in prose. *)
Lemma unparsable_reply_witness :
  exists s',
    analyze (PyDict [])
            (start signup_page [Ok (Some "Sorry, I cannot help with that.")])
    = (Ok PyNone, s')
    /\ hd_error (trace s')
       = Some (EvLog ERROR
                 "Error in LLM request: 'FormFillingAgent' object has no attribute 'create_fallback_mapping'")
    /\ exists s'',
        fill_form JsonLite.show PyNone s'
        = (Raise (AttributeError
                    "'NoneType' object has no attribute 'items'"), s'').
Proof.
  edestruct (unparsable_reply_yields_None (PyDict []) JsonLite.loads
               JsonLite.show JsonLite.show
               (start signup_page
                      [Ok (Some "Sorry, I cannot help with that.")]))
    as (s' & Ha & _ & Hh & Hf).
  - vm_compute. reflexivity.
  - vm_compute. reflexivity.
  - vm_compute. reflexivity.
  - exists s'. repeat split; [exact Ha | exact Hh | exact Hf].
Defined.

(** C2 on the sign-up page: the model advises against submission. *)
Lemma submit_gate_witness :
  exists b s' new,
    submit (PyDict []) (start signup_page [Ok (Some "STOP: name is empty")])
    = (Ok b, s')
    /\ added (start signup_page [Ok (Some "STOP: name is empty")]) s' new
    /\ b = false
    /\ forall ev, In ev new -> is_click ev = false.
Proof.
  destruct (submit_gate_safe (PyDict []) JsonLite.show
              (start signup_page [Ok (Some "STOP: name is empty")]))
    as (b & s' & new & Hrun & Hadd & _ & Hsafe).
  exists b, s', new.
  split; [exact Hrun |]. split; [exact Hadd |].
  apply Hsafe.
  vm_compute in Hrun. injection Hrun as _ <-.
  unfold added in Hadd. cbn [trace start] in Hadd.
  rewrite app_nil_r in Hadd. subst new.
  intros ev Hin.
  repeat (destruct Hin as [<- | Hin]; [reflexivity |]).
  contradiction.
Defined.

(** C3 fails as stated: a radio button that is not chosen is a control
    of the document, and the snapshot holds nothing for it. *)
Lemma unchosen_radio_not_recorded :
  ~ (forall (l : list node) d s',
        snapshot (start l []) = (Ok d, s') ->
        forall n, In n l -> is_control n = true -> recorded d n).
Proof.
  intros H.
  assert (Hs : snapshot (start lone_radio_page [])
               = (Ok [], start lone_radio_page []))
    by (vm_compute; reflexivity).
  destruct (H lone_radio_page [] _ Hs (radio "r1" "g" false)
              (or_introl eq_refl) eq_refl) as [k Hk].
  discriminate Hk.
Qed.

(** C3 as amended, on the sign-up page: the ticked checkbox is filed
    under its id. *)
Lemma snapshot_contents_witness :
  exists d s',
    snapshot (start signup_page []) = (Ok d, s')
    /\ dict_get d "agree" = Some (PyBool true).
Proof.
  destruct (snapshot (start signup_page [])) as [[d | x] s'] eqn:Hs;
    [| vm_compute in Hs; discriminate Hs].
  exists d, s'. split; [reflexivity |].
  assert (Hfind : find_elements By_XPATH controls_xpath
                    (world (start signup_page []))
                  = Ok [0%nat; 1%nat; 2%nat])
    by (vm_compute; reflexivity).
  destruct (snapshot_contents (start signup_page []) s' d
              [0%nat; 1%nat; 2%nat] "agree" Hfind Hs) as [Hlast _].
  apply (Hlast [0%nat] 1%nat [2%nat] (PyBool true)).
  - reflexivity.
  - vm_compute. reflexivity.
  - vm_compute. reflexivity.
  - intros e' [<- | []] Hk. vm_compute in Hk. discriminate Hk.
Defined.

(** C4 on the sign-up page: the chat service cannot be reached. *)
Lemma transport_failure_witness :
  fst (analyze (PyDict []) (start signup_page [])) = Ok PyNone.
Proof.
  unfold analyze.
  erewrite (transport_failure_yields_None (PyDict []) JsonLite.loads
              JsonLite.show (start signup_page [])).
  - reflexivity.
  - vm_compute. reflexivity.
  - vm_compute. reflexivity.
Defined.


(** C6 on the sign-up page: a key mapped to [None] between two others. *)
Lemma skip_on_empty_witness :
  fill_field JsonLite.show "agree" PyNone (start signup_page [])
  = (Ok tt, start signup_page [])
  /\ fill_items JsonLite.show
       ([("first_name", PyStr "Jane")] ++ ("agree", PyNone) :: [])
       (start signup_page [])
     = fill_items JsonLite.show ([("first_name", PyStr "Jane")] ++ [])
         (start signup_page []).
Proof.
  apply skip_on_empty. left. reflexivity.
Defined.

(** C7 fails as stated: by the claim's own list the number 1 does not
    denote true, so a box that is not ticked is already correct for it;
    yet [1 == True] in Python, and the box is clicked. *)
Lemma number_one_ticks_the_box :
  ~ (forall (l : list node) (field_id : string) (v : value) (e : nat)
            (b : bool) (s' : state page nat),
        locate field_id (start l []) = (Ok (Some e), start l []) ->
        get_attribute e "type" (open_page l []) = Ok (Some "checkbox") ->
        is_selected e (open_page l []) = Ok b ->
        b = listed_truth v ->
        fill_field JsonLite.show field_id v (start l []) = (Ok tt, s') ->
        forall ev, In ev (trace s') -> is_click ev = false).
Proof.
  intros H.
  specialize (H MorePages.unticked_page "agree" (PyInt 1) 0%nat false
                (snd (fill_field JsonLite.show "agree" (PyInt 1)
                        (start MorePages.unticked_page [])))
                eq_refl eq_refl eq_refl eq_refl eq_refl
                (EvClick (open_page MorePages.unticked_page []) 0%nat)).
  assert (Hin : In (EvClick (open_page MorePages.unticked_page []) 0%nat)
                   (trace (snd (fill_field JsonLite.show "agree" (PyInt 1)
                                  (start MorePages.unticked_page [])))))
    by (right; left; reflexivity).
  apply H in Hin. discriminate Hin.
Qed.

(** C7 as amended, on the sign-up page: the box is ticked and the value
    is "yes". *)
Lemma checkbox_already_correct_witness :
  exists s' new,
    fill_field JsonLite.show "agree" (PyStr "yes") (start signup_page [])
    = (Ok tt, s')
    /\ world s' = world (start signup_page [])
    /\ added (start signup_page []) s' new
    /\ forall ev, In ev new -> is_mutation ev = false.
Proof.
  apply (checkbox_already_correct JsonLite.show "agree" (PyStr "yes")
           (start signup_page []) (start signup_page []) 1%nat true);
    reflexivity.
Defined.

(** C8 fails as stated: a fence without the tag is a markdown fence,
    and it is handed to the decoder as it came. *)
Lemma untagged_fence_is_kept :
  ~ (forall lang body : string,
        contains lang nl = false ->
        clean_reply ("```" ++ lang ++ nl ++ body ++ nl ++ "```")
        = strip body).
Proof.
  intros H. specialize (H "" jane eq_refl).
  vm_compute in H. discriminate H.
Qed.

(** C8 as amended, on the sign-up page: the reply comes in a tagged
    fence. *)
Lemma fenced_reply_witness :
  exists s',
    analyze (PyDict [])
            (start signup_page [Ok (Some tagged_fence_reply)])
    = (Ok (PyDict [("first_name", PyStr "Jane")]), s').
Proof.
  edestruct (fenced_reply_parsed (PyDict []) JsonLite.loads JsonLite.show
               (start signup_page [Ok (Some tagged_fence_reply)]))
    as (Hparsed & _ & _).
  - vm_compute. reflexivity.
  - vm_compute. reflexivity.
  - destruct (Hparsed (PyDict [("first_name", PyStr "Jane")]))
      as (s' & Hrun & _).
    + vm_compute. reflexivity.
    + exists s'. exact Hrun.
Defined.


(** C10 on the sign-up page: the mapping asks for the ticked box to be
    off, and the box stays ticked. *)
Lemma ticked_checkbox_witness :
  checked_checkbox
    (world (snd (fill (PyDict [("agree", PyBool false)])
                      (start signup_page []))))
    1%nat.
Proof.
  destruct (ticked_checkbox_stays_ticked JsonLite.show
              (PyDict [("agree", PyBool false)])
              (start signup_page [])
              (snd (fill (PyDict [("agree", PyBool false)])
                         (start signup_page [])))
              (fst (fill (PyDict [("agree", PyBool false)])
                         (start signup_page []))))
    as (new & _ & _ & Hkeep).
  - unfold fill. now destruct (fill_form _ _ _).
  - apply Hkeep.
    + apply static_preserves_ticks.
    + split; reflexivity.
Defined.

End StaticFacts.

(* ================================================================== *)
(** * Further properties, for every browser *)
(* ================================================================== *)

Section AgentExtras.

Context {W elem : Type} {B : Browser W elem}.

Variable form_url : string.
Variable data : value.
Variable json_loads : string -> option value.
Variable json_dumps : value -> string.
Variable repr : value -> string.

Local Abbreviation state := (state W elem).
Local Abbreviation event := (event W elem).

Ltac munfold :=
  unfold do_click, do_clear, do_send_keys, do_select_text, do_select_value,
    do_chat, log, emit, act, query, try_except, bind, ret, raise in *.

Ltac exec H :=
  repeat (cbv beta iota delta [any_exception] in H; cbn [world trace] in H;
          match type of H with
          | context [match ?x with _ => _ end] =>
              lazymatch x with
              | context [match _ with _ => _ end] => fail
              | _ => destruct x eqn:?
              end
          end).

(** Name the events on top of the trace the run started with. *)
Lemma added_app (s : state) (w' : W) (tr' new l : list event) :
  added s (mkState w' tr') new ->
  added s (mkState w' (l ++ tr')%list) (l ++ new)%list.
Proof.
  unfold added. simpl. intros ->. now rewrite app_assoc.
Qed.

Ltac name_added :=
  eexists; split;
  [repeat first [eapply added_cons | eapply added_app]; apply added_refl |].

(** ** The scan of the document *)

Lemma describe_reads_quietly (idx : Z) (element : elem) :
  reads_quietly (describe idx element).
Proof.
  intros [w tr] r s' H. unfold describe in H. munfold.
  exec H; inversion H; subst; clear H; cbn [world trace];
    (split; [reflexivity |]); name_added; reflexivity.
Qed.

Lemma plain_logs (new : list event) :
  forallb is_plain_log new = true ->
  forallb is_log new = true /\ filter is_error_log new = [].
Proof.
  induction new as [| ev new IH]; simpl; [auto |].
  intros H. apply andb_prop in H as [Hev Hnew].
  destruct (IH Hnew) as [Hl Hf].
  destruct ev as [[] | | | | | | | | |]; try discriminate; simpl; auto.
Qed.

Lemma describe_all_spec (form_elements : list elem) (idx : Z)
      (element_details : list value) (s : state) :
  exists ds s' new,
    describe_all idx form_elements element_details s
    = (Ok (element_details ++ ds)%list, s')
    /\ world s' = world s
    /\ added s s' new
    /\ forallb is_log new = true
    /\ (List.length ds + List.length (filter is_error_log new)
        = List.length form_elements)%nat.
Proof.
  revert idx element_details s.
  induction form_elements as [| element rest IH];
    intros idx element_details s.
  - exists [], s, []. simpl. unfold ret. rewrite app_nil_r.
    repeat split.
  - cbn [describe_all]. munfold.
    destruct (describe idx element s) as [[d | x] s1] eqn:Hd;
      apply describe_reads_quietly in Hd as (Hw1 & new1 & Ha1 & Hq1);
      cbv beta iota delta [any_exception]; cbn [world trace].
    + destruct (IH (idx + 1) (element_details ++ [d])%list s1)
        as (ds & s' & new2 & -> & Hw2 & Ha2 & Hl2 & Hc2).
      exists (d :: ds), s', (new2 ++ new1)%list.
      split; [now rewrite <- app_assoc |].
      split; [congruence |].
      split; [unfold added in *; now rewrite Ha2, Ha1, app_assoc |].
      split; [rewrite forallb_app, Hl2; now apply (proj1 (plain_logs _ Hq1)) |].
      rewrite filter_app, length_app, (proj2 (plain_logs _ Hq1)).
      simpl. lia.
    + destruct (IH (idx + 1) element_details
                  (mkState (world s1)
                     (EvLog ERROR ("Error processing element "
                                     ++ str_int idx ++ ": " ++ exn_str x)
                        :: trace s1)))
        as (ds & s' & new2 & -> & Hw2 & Ha2 & Hl2 & Hc2).
      exists ds, s',
        (new2 ++ EvLog ERROR ("Error processing element "
                                ++ str_int idx ++ ": " ++ exn_str x)
              :: new1)%list.
      split; [reflexivity |].
      split; [cbn [world] in Hw2; congruence |].
      split; [unfold added in *; cbn [trace] in Ha2;
              now rewrite Ha2, Ha1, <- app_assoc |].
      split; [rewrite forallb_app, Hl2; cbn [forallb is_log andb];
              now apply (proj1 (plain_logs _ Hq1)) |].
      rewrite filter_app, length_app. cbn [filter is_error_log].
      rewrite (proj2 (plain_logs _ Hq1)). simpl. lia.
Qed.


Lemma forallb_weaken {A} (f g : A -> bool) (l : list A) :
  (forall x, f x = true -> g x = true) ->
  forallb f l = true -> forallb g l = true.
Proof.
  intros Hfg. induction l as [| x l IH]; simpl; [auto |].
  intros H. apply andb_prop in H as [Hx Hl].
  now rewrite (Hfg x Hx), (IH Hl).
Qed.

Lemma logs_filtered_out (f : event -> bool) (new : list event) :
  (forall l msg, f (EvLog l msg) = false) ->
  forallb is_log new = true -> filter f new = [].
Proof.
  intros Hf. induction new as [| ev new IH]; simpl; [auto |].
  intros H. apply andb_prop in H as [Hev Hnew].
  destruct ev; try discriminate. now rewrite Hf, (IH Hnew).
Qed.

Lemma introspect_spec (s s' : state) (r : outcome (list value)) :
  introspect s = (r, s') ->
  world s' = world s
  /\ (exists new, added s s' new /\ forallb is_log new = true)
  /\ (forall e, r = Raise e ->
                page_source (world s) = Raise e
                \/ find_elements By_XPATH controls_xpath (world s)
                   = Raise e).
Proof.
  destruct s as [w tr]. unfold introspect. munfold. cbn [world trace].
  destruct (page_source w) as [src | x] eqn:Hsrc.
  2: { intros H. inversion H; subst. split; [reflexivity |].
       split; [name_added; reflexivity |].
       intros e He. inversion He; subst. now left. }
  destruct (find_elements By_XPATH controls_xpath w) as [els | x] eqn:Hels.
  2: { intros H. inversion H; subst. split; [reflexivity |].
       split; [name_added; reflexivity |].
       intros e He. inversion He; subst. now right. }
  match goal with
  | |- context [describe_all ?i ?l ?a ?st] =>
      destruct (describe_all_spec l i a st)
        as (ds & [w1 tr1] & new & -> & Hw & Ha & Hl & _)
  end.
  cbn [world trace] in *. unfold added in Ha. cbn [trace] in Ha.
  subst w1 tr1.
  intros H. inversion H; subst. cbn [world].
  split; [reflexivity |].
  split; [| discriminate].
  name_added.
  cbn [forallb is_log andb]. rewrite forallb_app, Hl. reflexivity.
Qed.

(** ** The mapping phase as a whole *)

Lemma analyze_form_spec (s s' : state) (r : outcome value) :
  analyze_form data json_loads json_dumps s = (r, s') ->
  exists new,
    added s s' new
    /\ forallb (fun ev => is_log ev || is_chat ev) new = true
    /\ (List.length (filter is_chat new) <= 1)%nat
    /\ match r with
       | Raise e =>
           (page_source (world s) = Raise e
            \/ find_elements By_XPATH controls_xpath (world s) = Raise e)
           /\ world s' = world s
           /\ filter is_chat new = []
       | Ok v =>
           v = PyNone
           \/ exists user raw,
               In (EvChat user (Ok (Some raw))) new
               /\ json_loads (clean_reply raw) = Some v
       end.
Proof.
  unfold analyze_form. unfold bind at 1.
  destruct (introspect s) as [[details | x] [w1 tr1]] eqn:Hi;
    apply introspect_spec in Hi as (Hw & (newi & Ha & Hl) & Hr);
    destruct s as [w tr]; cbn [world trace] in *;
    unfold added in Ha; cbn [trace] in Ha; subst w1 tr1.
  - assert (Hlc : forallb (fun ev : event => is_log ev || is_chat ev) newi
                  = true).
    { apply (forallb_weaken is_log); auto. intros ev ->. reflexivity. }
    assert (Hnc : filter is_chat newi = [])
      by (apply logs_filtered_out; auto).
    unfold query_llm, call_self. munfold. cbn [world trace].
    intros H.
    exec H; inversion H; subst; clear H; name_added;
      (split;
       [cbn [forallb is_log is_chat orb andb];
        rewrite ?forallb_app, ?Hlc; reflexivity |]);
      (split;
       [cbn [filter is_log is_chat]; rewrite ?filter_app, ?Hnc;
        cbn [filter List.length app]; lia |]);
      first [ now left
            | right; do 2 eexists; split; [| eassumption];
              cbn [In]; auto 12 ].
  - intros H. inversion H; subst. exists newi.
    split; [reflexivity |].
    split; [apply (forallb_weaken is_log); auto; intros ev ->; reflexivity |].
    assert (Hnc : filter is_chat newi = [])
      by (apply logs_filtered_out; auto).
    split; [rewrite Hnc; simpl; lia |].
    split; [now apply Hr | split; [reflexivity | exact Hnc]].
Qed.

(** X2: [analyze_form] only looks at the page and asks the chat model
    at most once: it issues no click, no clear, no keys and no selection,
    and there is no second request, whatever the first one returned. *)
Theorem analyze_form_asks_once (s s' : state) (r : outcome value) :
  analyze_form data json_loads json_dumps s = (r, s') ->
  exists new,
    added s s' new
    /\ forallb (fun ev => is_log ev || is_chat ev) new = true
    /\ filter is_mutation new = []
    /\ (List.length (filter is_chat new) <= 1)%nat.
Proof.
  intros H.
  destruct (analyze_form_spec _ _ _ H) as (new & Ha & Hf & Hc & _).
  exists new. repeat split; auto.
  clear - Hf. induction new as [| ev new IH]; simpl in *; [auto |].
  apply andb_prop in Hf as [Hev Hnew].
  destruct ev; try discriminate; simpl; auto.
Qed.

(** X3: what [analyze_form] hands back.  A value it returns is [None]
    or exactly what the decoder made of the cleaned reply of the chat
    model: no mapping is ever made up locally.  It raises only when
    reading the page source or listing the controls raises, and then
    before any request was sent. *)
Theorem analyze_form_outcomes (s s' : state) (r : outcome value) :
  analyze_form data json_loads json_dumps s = (r, s') ->
  exists new,
    added s s' new
    /\ match r with
       | Raise e =>
           (page_source (world s) = Raise e
            \/ find_elements By_XPATH controls_xpath (world s) = Raise e)
           /\ world s' = world s
           /\ filter is_chat new = []
       | Ok v =>
           v = PyNone
           \/ exists user raw,
               In (EvChat user (Ok (Some raw))) new
               /\ json_loads (clean_reply raw) = Some v
       end.
Proof.
  intros H.
  destruct (analyze_form_spec _ _ _ H) as (new & Ha & _ & _ & Hr).
  exists new. split; assumption.
Qed.

(** ** The branches of [fill_form] *)

Lemma fill_form_non_dict (mapping_strategy : value) (s : state) :
  (forall d, mapping_strategy <> PyDict d) ->
  exists msg,
    fill_form repr mapping_strategy s
    = (Raise (AttributeError msg),
       mkState (world s)
         (EvLog INFO "Filling form with provided data..." :: trace s)).
Proof.
  intros Hd. unfold fill_form, items_of. munfold.
  destruct mapping_strategy; try (eexists; reflexivity).
  now destruct (Hd d).
Qed.

(** X4: a mapping that is not a dictionary ([None] after a failed
    mapping phase, but also a list, a string or a number the model
    answered with) makes [fill_form] raise [AttributeError] right after
    its first log line, with the page untouched. *)
Theorem fill_form_rejects_non_dict (mapping_strategy : value) (s : state) :
  (forall d, mapping_strategy <> PyDict d) ->
  exists msg,
    fill_form repr mapping_strategy s
    = (Raise (AttributeError msg),
       mkState (world s)
         (EvLog INFO "Filling form with provided data..." :: trace s)).
Proof.
  exact (fill_form_non_dict mapping_strategy s).
Qed.

Lemma locate_some (field_id : string) (s s1 : state) (e : elem) :
  locate field_id s = (Ok (Some e), s1) -> s1 = s.
Proof.
  unfold locate. munfold. intros H.
  exec H; inversion H; subst; reflexivity.
Qed.

(** The per-field body once the element is known. *)
Lemma fill_field_located (field_id : string) (v : value) (s s1 : state)
      (e : elem) :
  py_is_None v || py_eq_str v "" = false ->
  locate field_id s = (Ok (Some e), s1) ->
  fill_field repr field_id v s
  = try_except (inject repr field_id v e) any_exception
      (fun x => log ERROR ("Error filling field " ++ field_id ++ ": "
                             ++ exn_str x)) s.
Proof.
  intros Hv Hloc. pose proof (locate_some _ _ _ _ Hloc). subst s1.
  unfold fill_field, fill_field_body. rewrite Hv.
  unfold try_except, bind at 1. now rewrite Hloc.
Qed.

Lemma radio_wants_bool (b : bool) : radio_wants repr (PyBool b) = b.
Proof. now destruct b. Qed.

(** X5: on an element that reads as a radio button the only action ever
    issued is one click, and it is issued exactly when the lower-cased
    text of the value is "true", "yes", "y" or "1" (so for the boolean
    [True], not for [False]).  Any other value leaves the page as it is:
    a radio button is never cleared by the filler. *)
Theorem radio_click_rule (field_id : string) (v : value) (s s1 : state)
        (e : elem) :
  py_is_None v || py_eq_str v "" = false ->
  locate field_id s = (Ok (Some e), s1) ->
  get_attribute e "type" (world s1) = Ok (Some "radio") ->
  (exists s' new,
      fill_field repr field_id v s = (Ok tt, s')
      /\ added s s' new
      /\ filter is_mutation new
         = (if radio_wants repr v then [EvClick (world s) e] else [])
      /\ (radio_wants repr v = false -> world s' = world s))
  /\ forall b, radio_wants repr (PyBool b) = b.
Proof.
  intros Hv Hloc Htype. split; [| apply radio_wants_bool].
  rewrite (fill_field_located _ _ _ _ _ Hv Hloc).
  pose proof (locate_some _ _ _ _ Hloc). subst s1.
  destruct s as [w tr]. cbn [world] in *.
  unfold inject. munfold. cbn [world trace]. rewrite Htype.
  cbv beta iota.
  change (opt_is (Some "radio") "checkbox") with false.
  change (opt_is (Some "radio") "radio") with true.
  cbv beta iota. cbv beta iota delta [world trace]. fold (radio_wants repr v).
  destruct (radio_wants repr v).
  - destruct (click e w) as [[[] | x] w'];
      cbv beta iota delta [any_exception]; cbn [world trace];
      do 2 eexists; (split; [reflexivity |]);
      (split; [repeat eapply added_cons; apply added_refl |]);
      split; [reflexivity | discriminate | reflexivity | discriminate].
  - do 2 eexists. split; [reflexivity |].
    split; [repeat eapply added_cons; apply added_refl |].
    split; reflexivity.
Qed.

(** X6: on a [select] the value is first offered as visible text and,
    only when that raises, as option value.  When both raise, a warning
    is logged, no exception leaves the iteration, and the closing
    "Filled field" line is logged all the same.  Nothing is clicked,
    cleared or typed. *)
Theorem select_tries_text_then_value (field_id : string) (v : value)
        (s s1 : state) (e : elem) (t : option string)
        (r1 r2 : outcome unit) (w1 w2 : W) :
  py_is_None v || py_eq_str v "" = false ->
  locate field_id s = (Ok (Some e), s1) ->
  get_attribute e "type" (world s1) = Ok t ->
  opt_is t "checkbox" = false ->
  opt_is t "radio" = false ->
  tag_name e (world s1) = Ok "select" ->
  Select_init e (world s1) = Ok tt ->
  select_by_visible_text e (py_str repr v) (world s1) = (r1, w1) ->
  select_by_value e (py_str repr v) w1 = (r2, w2) ->
  exists s' new,
    fill_field repr field_id v s = (Ok tt, s')
    /\ added s s' new
    /\ world s' = (if is_ok r1 then w1 else w2)
    /\ filter is_mutation new
       = (if is_ok r1 then [EvSelectText e (py_str repr v)]
          else [EvSelectValue e (py_str repr v);
                EvSelectText e (py_str repr v)])
    /\ hd_error new = Some (filled_line repr field_id v)
    /\ (is_ok r1 = false -> is_ok r2 = false ->
        In (EvLog WARNING ("Could not select value " ++ py_str repr v
                             ++ " for " ++ field_id)) new).
Proof.
  intros Hv Hloc Htype Hcb Hradio Htag Hinit Htext Hvalue.
  rewrite (fill_field_located _ _ _ _ _ Hv Hloc).
  pose proof (locate_some _ _ _ _ Hloc). subst s1.
  destruct s as [w tr]. cbn [world] in *.
  unfold inject, filled_line. munfold. cbv beta iota delta [world trace].
  rewrite Htype. cbv beta iota delta [world trace].
  rewrite Hcb, Hradio, Htag.
  change (String.eqb "select" "select") with true. cbv beta iota delta [world trace].
  rewrite Hinit. cbv beta iota delta [world trace].
  rewrite Htext.
  destruct r1 as [[] | x1]; cbv beta iota delta [any_exception world trace is_ok].
  - do 2 eexists. split; [reflexivity |].
    split; [repeat eapply added_cons; apply added_refl |].
    repeat split. discriminate.
  - cbv beta iota delta [world trace]. rewrite Hvalue.
    destruct r2 as [[] | x2]; cbv beta iota delta [any_exception world trace is_ok];
      do 2 eexists; (split; [reflexivity |]);
      (split; [repeat eapply added_cons; apply added_refl |]);
      repeat split; try discriminate.
    intros _ _. right. left. reflexivity.
Qed.

(** X7: on any other element the field is cleared and then the text of
    the value is typed, in that order; when the clear raises nothing is
    typed.  Either way the exception stays inside the iteration. *)
Theorem text_is_cleared_then_typed (field_id : string) (v : value)
        (s s1 : state) (e : elem) (t : option string) (tag : string)
        (rc rs : outcome unit) (w1 w2 : W) :
  py_is_None v || py_eq_str v "" = false ->
  locate field_id s = (Ok (Some e), s1) ->
  get_attribute e "type" (world s1) = Ok t ->
  opt_is t "checkbox" = false ->
  opt_is t "radio" = false ->
  tag_name e (world s1) = Ok tag ->
  tag <> "select" ->
  clear e (world s1) = (rc, w1) ->
  send_keys e (py_str repr v) w1 = (rs, w2) ->
  exists s' new,
    fill_field repr field_id v s = (Ok tt, s')
    /\ added s s' new
    /\ world s' = (if is_ok rc then w2 else w1)
    /\ filter is_mutation new
       = (if is_ok rc then [EvSendKeys e (py_str repr v); EvClear e]
          else [EvClear e])
    /\ (is_ok rc && is_ok rs = true ->
        hd_error new = Some (filled_line repr field_id v))
    /\ (is_ok rc && is_ok rs = false ->
        exists x, hd_error new
                  = Some (EvLog ERROR ("Error filling field " ++ field_id
                                         ++ ": " ++ exn_str x))).
Proof.
  intros Hv Hloc Htype Hcb Hradio Htag Hsel Hclear Hkeys.
  rewrite (fill_field_located _ _ _ _ _ Hv Hloc).
  pose proof (locate_some _ _ _ _ Hloc). subst s1.
  destruct s as [w tr]. cbn [world] in *.
  unfold inject, filled_line. munfold. cbv beta iota delta [world trace].
  rewrite Htype. cbv beta iota delta [world trace].
  rewrite Hcb, Hradio, Htag.
  apply String.eqb_neq in Hsel. rewrite Hsel. cbv beta iota delta [world trace].
  rewrite Hclear.
  destruct rc as [[] | xc]; cbv beta iota delta [any_exception world trace is_ok].
  - cbv beta iota delta [world trace]. rewrite Hkeys.
    destruct rs as [[] | xs]; cbv beta iota delta [any_exception world trace is_ok andb];
      do 2 eexists; (split; [reflexivity |]);
      (split; [repeat eapply added_cons; apply added_refl |]);
      repeat split; try discriminate.
    intros _. eexists. reflexivity.
  - do 2 eexists. split; [reflexivity |].
    split; [repeat eapply added_cons; apply added_refl |].
    repeat split; try discriminate.
    intros _. eexists. reflexivity.
Qed.

(** ** The pass over the mapping *)

(** X8: filling a mapping is filling its first part and then, from the
    state that leaves, the rest: no failure in the first part can keep
    the later keys from being processed. *)
Theorem fill_items_app (first rest : list (string * value)) (s : state) :
  fill_items repr (first ++ rest) s
  = fill_items repr rest (snd (fill_items repr first s)).
Proof.
  revert s.
  induction first as [| [field_id v] first IH]; intros s.
  - reflexivity.
  - rewrite <- app_comm_cons, !fill_items_step. apply IH.
Qed.

Lemma fill_field_footprint (field_id : string) (v : value) (s s' : state)
      (r : outcome unit) :
  fill_field repr field_id v s = (r, s') ->
  exists new,
    added s s' new
    /\ forallb (fun ev => is_log ev || is_mutation ev) new = true.
Proof.
  destruct s as [w tr].
  unfold fill_field, fill_field_body, locate, inject. munfold.
  intros H.
  exec H; inversion H; subst; clear H; name_added; reflexivity.
Qed.

Lemma fill_items_footprint (items : list (string * value)) (s s' : state)
      (r : outcome unit) :
  fill_items repr items s = (r, s') ->
  exists new,
    added s s' new
    /\ forallb (fun ev => is_log ev || is_mutation ev) new = true.
Proof.
  revert s.
  induction items as [| [field_id v] rest IH]; intros s; simpl.
  - unfold ret. intros H. inversion H; subst. now exists [].
  - unfold bind.
    destruct (fill_field repr field_id v s) as [[[] | x] s1] eqn:Hf;
      apply fill_field_footprint in Hf as (new1 & Ha1 & Hf1); intros H.
    + destruct (IH _ H) as (new2 & Ha2 & Hf2).
      exists (new2 ++ new1)%list. unfold added in *.
      split; [now rewrite Ha2, Ha1, app_assoc |].
      now rewrite forallb_app, Hf2, Hf1.
    + inversion H; subst. now exists new1.
Qed.

Lemma fill_form_events (mapping_strategy : value) (s s' : state)
      (r : outcome unit) :
  fill_form repr mapping_strategy s = (r, s') ->
  exists new,
    added s s' new
    /\ forallb (fun ev => is_log ev || is_mutation ev) new = true.
Proof.
  destruct s as [w tr]. unfold fill_form, items_of. munfold.
  cbv beta iota delta [world trace].
  destruct mapping_strategy;
    try (intros H; inversion H; subst; name_added; reflexivity).
  cbv beta iota.
  destruct (fill_items repr d _) as [[[] | x] [w1 tr1]] eqn:Hf;
    apply fill_items_footprint in Hf as (new1 & Ha1 & Hf1);
    unfold added in Ha1; cbn [trace] in Ha1; subst tr1;
    intros H; inversion H; subst.
  - exists (EvLog INFO "Form filling complete."
              :: new1
              ++ [EvLog INFO "Filling form with provided data..."])%list.
    split.
    + unfold added. cbn [trace app]. now rewrite <- app_assoc.
    + cbn [forallb is_log orb andb]. rewrite forallb_app, Hf1. reflexivity.
  - exists (new1 ++ [EvLog INFO "Filling form with provided data..."])%list.
    split.
    + unfold added. cbn [trace app]. now rewrite <- app_assoc.
    + rewrite forallb_app, Hf1. reflexivity.
Qed.

(** X9: [fill_form] only logs and acts on the page: it never asks the
    chat model, never navigates, takes no screenshot and never closes
    the browser. *)
Theorem fill_form_footprint (mapping_strategy : value) (s s' : state)
        (r : outcome unit) :
  fill_form repr mapping_strategy s = (r, s') ->
  exists new,
    added s s' new
    /\ forallb (fun ev => is_log ev || is_mutation ev) new = true.
Proof.
  exact (fill_form_events mapping_strategy s s' r).
Qed.

(** ** The gate, selector by selector *)

Ltac split_reads :=
  repeat match goal with
         | |- context [match ?x with _ => _ end] =>
             lazymatch x with
             | context [match _ with _ => _ end] => fail
             | _ => destruct x
             end
         end.

Lemma read_control_same_world (form_data : list (string * value))
      (e : elem) (w : W) (tr tr' : list event) :
  fst (read_control form_data e (mkState w tr))
  = fst (read_control form_data e (mkState w tr')).
Proof.
  unfold read_control. munfold. cbv beta iota delta [world trace].
  split_reads; reflexivity.
Qed.

Lemma read_controls_same_world (form_elements : list elem)
      (form_data : list (string * value)) (w : W) (tr tr' : list event) :
  fst (read_controls form_data form_elements (mkState w tr))
  = fst (read_controls form_data form_elements (mkState w tr')).
Proof.
  revert form_data.
  induction form_elements as [| e rest IH]; intros form_data; simpl.
  - reflexivity.
  - unfold bind.
    pose proof (read_control_same_world form_data e w tr tr') as Hsame.
    destruct (read_control form_data e (mkState w tr))
      as [r1 s1] eqn:H1.
    destruct (read_control form_data e (mkState w tr'))
      as [r2 s2] eqn:H2.
    apply read_control_pure in H1, H2. subst s1 s2.
    cbn [fst] in Hsame. subst r2.
    destruct r1; [apply IH | reflexivity].
Qed.

Lemma snapshot_same_world (w : W) (tr tr' : list event) :
  fst (snapshot (mkState w tr)) = fst (snapshot (mkState w tr')).
Proof.
  unfold snapshot, bind, query. cbn [world].
  destruct (find_elements By_XPATH controls_xpath w).
  - apply read_controls_same_world.
  - reflexivity.
Qed.

Lemma snapshot_at (s : state) (tr' : list event)
      (r : outcome (list (string * value))) :
  fst (snapshot s) = r ->
  snapshot (mkState (world s) tr') = (r, mkState (world s) tr').
Proof.
  intros <-. destruct s as [w tr]. cbn [world].
  rewrite (snapshot_same_world w tr tr').
  destruct (snapshot (mkState w tr')) as [r s'] eqn:H.
  apply snapshot_pure in H. now subst s'.
Qed.

Lemma try_selector_unresolved (selector : string) (s : state) (m : string) :
  find_element By_XPATH selector (world s)
  = Raise (NoSuchElementException m) ->
  try_selector data json_dumps selector s = (Ok None, s).
Proof.
  intros H. unfold try_selector, attempt. munfold. now rewrite H.
Qed.

Lemma submit_loop_skips (before rest : list string) (s : state) :
  (forall sel, In sel before ->
               exists m, find_element By_XPATH sel (world s)
                         = Raise (NoSuchElementException m)) ->
  submit_loop data json_dumps (before ++ rest) s
  = submit_loop data json_dumps rest s.
Proof.
  induction before as [| sel before IH]; intros H; simpl.
  - reflexivity.
  - destruct (H sel (or_introl eq_refl)) as [m Hm].
    unfold bind. rewrite (try_selector_unresolved _ _ _ Hm).
    apply IH. intros sel' Hin. apply H. now right.
Qed.

(** X10: when none of the six selectors finds a control, [submit_form]
    returns [False] without consulting the chat model: it only logs. *)
Theorem no_control_no_request (s : state) :
  (forall sel, In sel submit_selectors ->
               exists m, find_element By_XPATH sel (world s)
                         = Raise (NoSuchElementException m)) ->
  submit_form data json_dumps s
  = (Ok false,
     mkState (world s)
       (EvLog WARNING "Could not find submit button."
        :: EvLog INFO "Looking for submit button..." :: trace s)).
Proof.
  intros H. unfold submit_form. unfold bind, log, emit at 1.
  rewrite <- (app_nil_r submit_selectors).
  rewrite submit_loop_skips by exact H.
  reflexivity.
Qed.

(** The loop once the first selector that finds a control is reached. *)
Lemma submit_form_at_first (before after : list string) (selector : string)
      (s : state) :
  submit_selectors = (before ++ selector :: after)%list ->
  (forall sel, In sel before ->
               exists m, find_element By_XPATH sel (world s)
                         = Raise (NoSuchElementException m)) ->
  submit_form data json_dumps s
  = submit_loop data json_dumps (selector :: after)
      (mkState (world s)
         (EvLog INFO "Looking for submit button..." :: trace s)).
Proof.
  intros Heq H. unfold submit_form. unfold bind, log, emit at 1.
  rewrite Heq. now rewrite submit_loop_skips.
Qed.

(** X11: the first selector, in the order of the list, that finds a
    control decides.  When the model's reply contains "PROCEED", that
    control is clicked, once, after a single request; the result is
    [True] when the click goes through and [False] when it raises
    (anything but [NoSuchElementException]), although the click was
    issued.  The selectors after it are not tried. *)
Theorem approval_clicks_first_match (before after : list string)
        (selector : string) (s : state) (button : elem)
        (form_data : list (string * value)) (reply : string)
        (w1 w2 : W) (rc : outcome unit) :
  submit_selectors = (before ++ selector :: after)%list ->
  (forall sel, In sel before ->
               exists m, find_element By_XPATH sel (world s)
                         = Raise (NoSuchElementException m)) ->
  find_element By_XPATH selector (world s) = Ok button ->
  fst (snapshot s) = Ok form_data ->
  chat_completions_create "gpt-4-turbo" submit_system
    (submit_prompt data json_dumps form_data) 500 (world s)
  = (Ok (Some reply), w1) ->
  contains reply "PROCEED" = true ->
  click button w1 = (rc, w2) ->
  (forall m, rc <> Raise (NoSuchElementException m)) ->
  exists s' new,
    submit_form data json_dumps s = (Ok (is_ok rc), s')
    /\ world s' = w2
    /\ added s s' new
    /\ filter is_mutation new = [EvClick w1 button]
    /\ filter is_chat new
       = [EvChat (submit_prompt data json_dumps form_data)
                 (Ok (Some reply))].
Proof.
  intros Heq Hbefore Hfind Hsnap Hchat Hproceed Hclick Hrc.
  rewrite (submit_form_at_first _ _ _ _ Heq Hbefore).
  destruct s as [w tr]. cbn [world trace] in *.
  cbn [submit_loop]. unfold try_selector, attempt. munfold.
  cbv beta iota delta [world trace]. rewrite Hfind.
  cbv beta iota delta [world trace].
  rewrite (snapshot_at (mkState w tr) _ _ Hsnap).
  cbv beta iota delta [world trace]. rewrite Hchat.
  cbv beta iota delta [world trace]. rewrite Hproceed.
  cbv beta iota delta [world trace]. rewrite Hclick.
  destruct rc as [[] | x];
    cbv beta iota delta [world trace any_exception is_ok].
  - do 2 eexists. split; [reflexivity |].
    split; [reflexivity |].
    split; [repeat eapply added_cons; apply added_refl |].
    split; reflexivity.
  - destruct (is_NoSuchElement x) eqn:Hx.
    { destruct x; try discriminate. now destruct (Hrc msg). }
    do 2 eexists. split; [reflexivity |].
    split; [reflexivity |].
    split; [repeat eapply added_cons; apply added_refl |].
    split; reflexivity.
Qed.

(** X12: when the reply of the model does not contain "PROCEED", the
    result is [False] after that single request: nothing is clicked, the
    later selectors are not tried, and the reason logged is the reply
    with every "STOP" removed and the surrounding whitespace trimmed. *)
Theorem rejection_stops_the_gate (before after : list string)
        (selector : string) (s : state) (button : elem)
        (form_data : list (string * value)) (reply : string) (w1 : W) :
  submit_selectors = (before ++ selector :: after)%list ->
  (forall sel, In sel before ->
               exists m, find_element By_XPATH sel (world s)
                         = Raise (NoSuchElementException m)) ->
  find_element By_XPATH selector (world s) = Ok button ->
  fst (snapshot s) = Ok form_data ->
  chat_completions_create "gpt-4-turbo" submit_system
    (submit_prompt data json_dumps form_data) 500 (world s)
  = (Ok (Some reply), w1) ->
  contains reply "PROCEED" = false ->
  exists s' new,
    submit_form data json_dumps s = (Ok false, s')
    /\ world s' = w1
    /\ added s s' new
    /\ filter is_mutation new = []
    /\ filter is_chat new
       = [EvChat (submit_prompt data json_dumps form_data)
                 (Ok (Some reply))]
    /\ hd_error new
       = Some (EvLog WARNING ("LLM advised against submission: "
                                ++ strip (remove_all reply "STOP"))).
Proof.
  intros Heq Hbefore Hfind Hsnap Hchat Hproceed.
  rewrite (submit_form_at_first _ _ _ _ Heq Hbefore).
  destruct s as [w tr]. cbn [world trace] in *.
  cbn [submit_loop]. unfold try_selector, attempt. munfold.
  cbv beta iota delta [world trace]. rewrite Hfind.
  cbv beta iota delta [world trace].
  rewrite (snapshot_at (mkState w tr) _ _ Hsnap).
  cbv beta iota delta [world trace]. rewrite Hchat.
  cbv beta iota delta [world trace]. rewrite Hproceed.
  cbv beta iota delta [world trace].
  do 2 eexists. split; [reflexivity |].
  split; [reflexivity |].
  split; [repeat eapply added_cons; apply added_refl |].
  repeat split.
Qed.

(** X13: when the request of the gate raises (anything but
    [NoSuchElementException]) or comes back without content, the error
    is logged and the result is [False]; nothing is clicked and no
    further selector is tried. *)
Theorem gate_failure_means_no_submit (before after : list string)
        (selector : string) (s : state) (button : elem)
        (form_data : list (string * value))
        (answer : outcome (option string)) (w1 : W) :
  submit_selectors = (before ++ selector :: after)%list ->
  (forall sel, In sel before ->
               exists m, find_element By_XPATH sel (world s)
                         = Raise (NoSuchElementException m)) ->
  find_element By_XPATH selector (world s) = Ok button ->
  fst (snapshot s) = Ok form_data ->
  chat_completions_create "gpt-4-turbo" submit_system
    (submit_prompt data json_dumps form_data) 500 (world s)
  = (answer, w1) ->
  answer = Ok None
  \/ (exists x, answer = Raise x /\ is_NoSuchElement x = false) ->
  exists s' new,
    submit_form data json_dumps s = (Ok false, s')
    /\ world s' = w1
    /\ added s s' new
    /\ filter is_mutation new = []
    /\ hd_error new
       = Some (EvLog ERROR
                 ("Error during form submission: "
                    ++ exn_str
                         match answer with
                         | Raise x => x
                         | Ok _ =>
                             TypeError
                               "argument of type 'NoneType' is not iterable"
                         end)).
Proof.
  intros Heq Hbefore Hfind Hsnap Hchat Hanswer.
  rewrite (submit_form_at_first _ _ _ _ Heq Hbefore).
  destruct s as [w tr]. cbn [world trace] in *.
  cbn [submit_loop]. unfold try_selector, attempt. munfold.
  cbv beta iota delta [world trace]. rewrite Hfind.
  cbv beta iota delta [world trace].
  rewrite (snapshot_at (mkState w tr) _ _ Hsnap).
  cbv beta iota delta [world trace]. rewrite Hchat.
  destruct Hanswer as [-> | (x & -> & Hx)];
    cbv beta iota delta [world trace any_exception]; try rewrite Hx;
    cbv beta iota delta [is_NoSuchElement world trace];
    do 2 eexists; (split; [reflexivity |]);
    (split; [reflexivity |]);
    (split; [repeat eapply added_cons; apply added_refl |]);
    split; reflexivity.
Qed.

Lemma try_selector_events (selector : string) (s s' : state)
      (r : outcome (option bool)) :
  try_selector data json_dumps selector s = (r, s') ->
  exists new,
    added s s' new
    /\ forallb gate_event new = true
    /\ (List.length (filter is_chat new) <= 1)%nat
    /\ (List.length (filter is_click new)
        <= List.length (filter is_proceed_reply new))%nat
    /\ (r = Ok (Some true) ->
        exists w b rest,
          new = EvLog INFO "Form submitted successfully."
                  :: EvClick w b :: rest).
Proof.
  destruct s as [w tr].
  unfold try_selector, attempt. munfold. cbn [world trace].
  intros H.
  exec H;
    repeat match goal with
           | Hs : snapshot _ = (_, ?s1) |- _ =>
               apply snapshot_pure in Hs; subst s1
           end;
    cbn [world trace] in *; inversion H; subst; clear H;
    name_added;
    (split; [reflexivity |]);
    (split; [cbn [filter is_chat List.length]; lia |]);
    (split;
     [cbn [filter is_click is_proceed_reply];
      repeat match goal with
             | Hc : contains _ _ = _ |- _ => rewrite Hc
             end;
      cbn [List.length]; lia |]);
    intros Hr; try discriminate Hr; do 3 eexists; reflexivity.
Qed.

Lemma submit_loop_events (selectors : list string) (s s' : state)
      (r : outcome bool) :
  submit_loop data json_dumps selectors s = (r, s') ->
  exists new,
    added s s' new
    /\ forallb gate_event new = true
    /\ (List.length (filter is_chat new) <= List.length selectors)%nat
    /\ (List.length (filter is_click new)
        <= List.length (filter is_proceed_reply new))%nat
    /\ (r = Ok true ->
        exists w b rest,
          new = EvLog INFO "Form submitted successfully."
                  :: EvClick w b :: rest).
Proof.
  revert s.
  induction selectors as [| selector rest IH]; intros s; simpl.
  - destruct s as [w tr]. munfold. cbn [world trace].
    intros H. inversion H; subst. name_added.
    repeat split; simpl; try lia. discriminate.
  - unfold bind.
    destruct (try_selector data json_dumps selector s)
      as [[[b |] | x] s1] eqn:H1;
      apply try_selector_events in H1
        as (new1 & Ha1 & Hg1 & Hc1 & Hp1 & Ht1).
    + unfold ret. intros H. inversion H; subst. exists new1.
      repeat split; auto; try lia.
      intros Hb. apply Ht1. congruence.
    + intros H. destruct (IH _ H) as (new2 & Ha2 & Hg2 & Hc2 & Hp2 & Ht2).
      exists (new2 ++ new1)%list. unfold added in *.
      split; [now rewrite Ha2, Ha1, app_assoc |].
      split; [now rewrite forallb_app, Hg2, Hg1 |].
      rewrite !filter_app, !length_app.
      split; [lia |]. split; [lia |].
      intros Hr. destruct (Ht2 Hr) as (w & b & rest0 & ->).
      exists w, b, (rest0 ++ new1)%list. reflexivity.
    + intros H. inversion H; subst. exists new1.
      repeat split; auto; try lia. discriminate.
Qed.

Lemma submit_form_events (s s' : state) (r : outcome bool) :
  submit_form data json_dumps s = (r, s') ->
  exists new,
    added s s' new
    /\ forallb gate_event new = true
    /\ (List.length (filter is_chat new) <= 6)%nat
    /\ (List.length (filter is_click new)
        <= List.length (filter is_proceed_reply new))%nat
    /\ (r = Ok true ->
        exists w b rest,
          new = EvLog INFO "Form submitted successfully."
                  :: EvClick w b :: rest).
Proof.
  destruct s as [w tr]. unfold submit_form. unfold bind, log, emit at 1.
  cbn [world trace]. intros H.
  apply submit_loop_events in H as (new & Ha & Hg & Hc & Hp & Ht).
  exists (new ++ [EvLog INFO "Looking for submit button..."])%list.
  unfold added in *. cbn [trace] in *.
  split; [now rewrite Ha, <- app_assoc |].
  split; [now rewrite forallb_app, Hg |].
  rewrite !filter_app, !length_app. cbn [filter is_chat is_click
    is_proceed_reply List.length]. cbn [submit_selectors List.length] in Hc.
  split; [lia |]. split; [lia |].
  intros Hr. destruct (Ht Hr) as (w0 & b & rest & ->).
  exists w0, b, (rest ++ [EvLog INFO "Looking for submit button..."])%list.
  reflexivity.
Qed.

(** X14: the gate never edits the form: [submit_form] adds only log
    lines, requests to the chat model and clicks.  It sends at most six
    requests (one per selector), and it never issues more clicks than it
    received replies containing "PROCEED". *)
Theorem submit_form_footprint (s s' : state) (r : outcome bool) :
  submit_form data json_dumps s = (r, s') ->
  exists new,
    added s s' new
    /\ forallb gate_event new = true
    /\ (List.length (filter is_chat new) <= 6)%nat
    /\ (List.length (filter is_click new)
        <= List.length (filter is_proceed_reply new))%nat.
Proof.
  intros H.
  destruct (submit_form_events _ _ _ H) as (new & Ha & Hg & Hc & Hp & _).
  exists new. auto.
Qed.

(** ** The run as a whole *)

Lemma run_unfold (s : state) :
  run form_url data json_loads json_dumps repr s
  = try_finally (run_body form_url data json_loads json_dumps repr)
      (act (fun _ _ => EvQuit) quit) s.
Proof. reflexivity. Qed.

Lemma work_of_scan (l : list event) :
  forallb (fun ev => is_log ev || is_chat ev) l = true ->
  forallb work_event l = true.
Proof.
  apply forallb_weaken. now intros [].
Qed.

Lemma work_of_fill (l : list event) :
  forallb (fun ev => is_log ev || is_mutation ev) l = true ->
  forallb work_event l = true.
Proof.
  apply forallb_weaken. now intros [].
Qed.

Lemma work_of_gate (l : list event) :
  forallb gate_event l = true -> forallb work_event l = true.
Proof.
  apply forallb_weaken. now intros [].
Qed.

Lemma run_body_events (s s1 : state) (r : outcome bool) :
  run_body form_url data json_loads json_dumps repr s = (r, s1) ->
  exists new,
    added s s1 new
    /\ ((forallb work_event new = true /\ r <> Ok true)
        \/ exists path w b rest mid,
            new = (mid ++ EvScreenshot path
                     :: EvLog INFO "Form submitted successfully."
                     :: EvClick w b :: rest)%list
            /\ forallb work_event rest = true
            /\ (mid = [] \/ mid = [EvLog INFO ("Screenshot saved to "
                                                 ++ path)])
            /\ (r = Ok true ->
                mid = [EvLog INFO ("Screenshot saved to " ++ path)])).
Proof.
  destruct s as [w tr].
  unfold run_body, navigate_to_form. munfold. cbn [world trace].
  intros H. exec H;
    repeat match goal with
           | Hx : analyze_form _ _ _ ?st0 = (_, ?st) |- _ =>
               apply analyze_form_spec in Hx as (? & ? & ? & _ & _);
               destruct st as [? ?]
           | Hx : fill_form _ _ ?st0 = (_, ?st) |- _ =>
               apply fill_form_events in Hx as (? & ? & ?);
               destruct st as [? ?]
           | Hx : submit_form _ _ ?st0 = (_, ?st) |- _ =>
               apply submit_form_events in Hx as (? & ? & ? & _ & _ & ?);
               destruct st as [? ?]
           end;
    unfold added in * |-; cbn [world trace] in *; subst;
    inversion H; subst; clear H;
    try match goal with
        | Hs : Ok true = Ok true -> _ |- _ =>
            destruct (Hs eq_refl) as (? & ? & ? & ->); clear Hs
        end;
    repeat match goal with
           | Hh : forallb gate_event _ = true |- _ =>
               apply work_of_gate in Hh
           | Hh : forallb (fun ev => is_log ev || is_chat ev) _ = true
             |- _ => apply work_of_scan in Hh
           | Hh : forallb (fun ev => is_log ev || is_mutation ev) _ = true
             |- _ => apply work_of_fill in Hh
           end;
    cbn [forallb work_event andb app] in *;
    name_added;
    first
      [ left; split; [| discriminate];
        cbn [forallb work_event andb]; rewrite ?forallb_app;
        cbn [forallb work_event andb];
        repeat match goal with
               | Hh : forallb work_event _ = true |- _ =>
                   rewrite Hh; clear Hh
               end;
        reflexivity
      | right; eexists _, _, _, _, [_]; split; [reflexivity |];
        (split;
         [rewrite ?forallb_app; cbn [forallb work_event andb];
          repeat match goal with
                 | Hh : forallb work_event _ = true |- _ =>
                     rewrite Hh; clear Hh
                 end;
          reflexivity |]);
        split; [right; reflexivity | reflexivity]
      | right; eexists _, _, _, _, []; split; [reflexivity |];
        (split;
         [rewrite ?forallb_app; cbn [forallb work_event andb];
          repeat match goal with
                 | Hh : forallb work_event _ = true |- _ =>
                     rewrite Hh; clear Hh
                 end;
          reflexivity |]);
        split; [left; reflexivity | discriminate] ].
Qed.

Lemma work_not_special (l : list event) :
  forallb work_event l = true ->
  forallb (fun ev => negb (is_quit ev)) l = true
  /\ filter is_screenshot l = [].
Proof.
  induction l as [| ev l IH]; simpl; [auto |].
  intros H. apply andb_prop in H as [Hev Hl].
  destruct (IH Hl) as [Hq Hs].
  destruct ev; try discriminate; simpl; auto.
Qed.

Lemma run_events (s s' : state) (r : outcome bool) :
  run form_url data json_loads json_dumps repr s = (r, s') ->
  exists body rb,
    added s s' (EvQuit :: body)
    /\ (r = Ok true -> rb = Ok true)
    /\ ((forallb work_event body = true /\ rb <> Ok true)
        \/ exists path w b rest mid,
            body = (mid ++ EvScreenshot path
                      :: EvLog INFO "Form submitted successfully."
                      :: EvClick w b :: rest)%list
            /\ forallb work_event rest = true
            /\ (mid = [] \/ mid = [EvLog INFO ("Screenshot saved to "
                                                 ++ path)])
            /\ (rb = Ok true ->
                mid = [EvLog INFO ("Screenshot saved to " ++ path)])).
Proof.
  rewrite run_unfold. unfold try_finally.
  destruct (run_body form_url data json_loads json_dumps repr s)
    as [rb [w1 tr1]] eqn:Hb.
  apply run_body_events in Hb as (body & Ha & Hshape).
  unfold act. cbn [world trace].
  destruct (quit w1) as [[[] | x] w2]; intros H;
    injection H as Hr Hs; subst r s';
    exists body, rb; (split; [| split; [| exact Hshape]]);
    try (unfold added in *; cbn [trace] in *; now rewrite Ha);
    auto; discriminate.
Qed.

(** X15: every run ends by closing the browser.  Whether the phases
    return or raise, [quit] is the last thing issued, and it is issued
    once. *)
Theorem run_always_quits (s s' : state) (r : outcome bool) :
  run form_url data json_loads json_dumps repr s = (r, s') ->
  exists body,
    added s s' (EvQuit :: body)
    /\ forallb (fun ev => negb (is_quit ev)) body = true.
Proof.
  intros H.
  destruct (run_events _ _ _ H) as (body & rb & Ha & _ & Hshape).
  exists body. split; [exact Ha |].
  destruct Hshape
    as [[Hw _] | (path & w & b & rest & mid & -> & Hw & Hmid & _)].
  - now apply work_not_special.
  - rewrite forallb_app. cbn [forallb is_quit negb andb].
    rewrite (proj1 (work_not_special _ Hw)).
    destruct Hmid as [-> | ->]; reflexivity.
Qed.

(** X16: a screenshot is taken at most once in a run, and only directly
    after the log line that follows a click of the gate that went
    through.  [run] returns [True] only when the screenshot was taken
    and the line about it was logged. *)
Theorem screenshot_only_after_submit (s s' : state) (r : outcome bool) :
  run form_url data json_loads json_dumps repr s = (r, s') ->
  exists body,
    added s s' (EvQuit :: body)
    /\ ((filter is_screenshot body = [] /\ r <> Ok true)
        \/ exists path w b rest mid,
            body = (mid ++ EvScreenshot path
                      :: EvLog INFO "Form submitted successfully."
                      :: EvClick w b :: rest)%list
            /\ filter is_screenshot rest = []
            /\ (mid = [] \/ mid = [EvLog INFO ("Screenshot saved to "
                                                 ++ path)])
            /\ (r = Ok true ->
                mid = [EvLog INFO ("Screenshot saved to " ++ path)])).
Proof.
  intros H.
  destruct (run_events _ _ _ H) as (body & rb & Ha & Hr & Hshape).
  exists body. split; [exact Ha |].
  destruct Hshape
    as [[Hw Hrb] | (path & w & b & rest & mid & -> & Hw & Hmid & Hsaved)].
  - left. split; [now apply work_not_special | auto].
  - right. exists path, w, b, rest, mid.
    split; [reflexivity |].
    split; [now apply work_not_special |].
    split; [exact Hmid | auto].
Qed.

(** X17: when the mapping phase hands back something that is not a
    dictionary (as it does, with [None], whenever the request or the
    parse failed), the run does not degrade: [fill_form] raises, the gate
    is never reached, and after the first log line of [fill_form] only
    [quit] is issued.  The exception is the [AttributeError] unless
    [quit] raises one of its own. *)
Theorem run_stops_without_mapping (s s2 : state) (w1 w3 : W) (v : value)
        (rq : outcome unit) :
  driver_get form_url (world s) = (Ok tt, w1) ->
  analyze_form data json_loads json_dumps
    (mkState w1 (EvGet form_url
                   :: EvLog INFO ("Navigating to " ++ form_url) :: trace s))
  = (Ok v, s2) ->
  (forall d, v <> PyDict d) ->
  quit (world s2) = (rq, w3) ->
  exists e,
    run form_url data json_loads json_dumps repr s
    = (Raise e,
       mkState w3
         (EvQuit :: EvLog INFO "Filling form with provided data..."
                 :: trace s2))
    /\ (is_ok rq = true -> exists msg, e = AttributeError msg).
Proof.
  intros Hget Hscan Hv Hquit.
  destruct (fill_form_non_dict v s2 Hv) as [msg Hfill].
  destruct s as [w tr], s2 as [w2 tr2]. cbn [world trace] in *.
  rewrite run_unfold. unfold try_finally, run_body, navigate_to_form.
  munfold. cbv beta iota delta [world trace].
  rewrite Hget. cbv beta iota delta [world trace].
  rewrite Hscan. cbv beta iota. rewrite Hfill.
  cbv beta iota delta [world trace]. rewrite Hquit.
  destruct rq as [[] | x]; eexists; (split; [reflexivity |]).
  - intros _. now exists msg.
  - discriminate.
Qed.

(** ** What the decoder is given *)

Lemma lstrip_shape (s : string) :
  lstrip s = ""
  \/ exists c t, lstrip s = String c t /\ is_space c = false.
Proof.
  induction s as [| c s IH]; simpl; [now left |].
  destruct (is_space c) eqn:Hc; [exact IH |].
  right. now exists c, s.
Qed.

Lemma rstrip_keeps_head (c : ascii) (t : string) :
  is_space c = false -> exists t', rstrip (String c t) = String c t'.
Proof.
  intros Hc. simpl. rewrite Hc. destruct (rstrip t); eauto.
Qed.

Lemma rstrip_idem (s : string) : rstrip (rstrip s) = rstrip s.
Proof.
  induction s as [| c s IH]; simpl; [reflexivity |].
  destruct (rstrip s) as [| c' r] eqn:Hr.
  - destruct (is_space c) eqn:Hc; simpl; [reflexivity | now rewrite Hc].
  - change (rstrip (String c (String c' r)))
      with (match rstrip (String c' r) with
            | "" => if is_space c then "" else String c ""
            | String a b => String c (String a b)
            end).
    now rewrite IH.
Qed.

Lemma strip_idem (s : string) : strip (strip s) = strip s.
Proof.
  unfold strip.
  destruct (lstrip_shape s) as [-> | (c & t & -> & Hc)]; [reflexivity |].
  destruct (rstrip_keeps_head c t Hc) as [t' Ht].
  rewrite Ht. simpl lstrip. rewrite Hc. rewrite <- Ht. apply rstrip_idem.
Qed.

Lemma lstrip_len (s : string) : len (lstrip s) <= len s.
Proof.
  unfold len. induction s as [| c s IH]; simpl; [lia |].
  destruct (is_space c); simpl; lia.
Qed.

Lemma rstrip_len (s : string) : len (rstrip s) <= len s.
Proof.
  unfold len. induction s as [| c s IH]; simpl; [lia |].
  destruct (rstrip s); [destruct (is_space c) |]; simpl in *; lia.
Qed.

Lemma strip_len (s : string) : len (strip s) <= len s.
Proof.
  unfold strip. pose proof (rstrip_len (lstrip s)).
  pose proof (lstrip_len s). lia.
Qed.

Lemma substring_len (s : string) (n m : nat) :
  (String.length (String.substring n m s) <= String.length s)%nat.
Proof.
  revert n m. induction s as [| c s IH]; intros n m.
  - destruct n, m; simpl; lia.
  - destruct n; simpl.
    + destruct m; simpl; [lia |]. specialize (IH O m). lia.
    + specialize (IH n m). lia.
Qed.

(** X18: whatever the reply, the text handed to the decoder carries no
    whitespace at either end and is never longer than the reply. *)
Theorem cleaned_reply_is_trimmed (raw : string) :
  strip (clean_reply raw) = clean_reply raw
  /\ len (clean_reply raw) <= len raw.
Proof.
  unfold clean_reply. split.
  - destruct (startswith (strip raw) "```json");
      [destruct (_ >? _) |]; apply strip_idem.
  - pose proof (strip_len raw).
    destruct (startswith (strip raw) "```json");
      [destruct (_ >? _) |]; try assumption.
    match goal with
    | |- len (strip ?x) <= _ => pose proof (strip_len x)
    end.
    assert (len (slice (strip raw)
                   (find (strip raw) nl + 1) (rfind (strip raw) "```"))
            <= len (strip raw)).
    { unfold slice, len. apply inj_le, substring_len. }
    lia.
Qed.

End AgentExtras.

(* ================================================================== *)
(** * The further properties on static pages *)
(* ================================================================== *)

Module StaticExtras.
Import StaticDom MorePages.

Lemma pair_eta {A C} (p : A * C) : p = (fst p, snd p).
Proof. now destruct p. Qed.

(** X2 on the sign-up page, with a reply in a tagged fence. *)
Lemma analyze_form_asks_once_witness :
  exists new,
    added (start signup_page [Ok (Some tagged_fence_reply)])
          (snd (analyze (PyDict [])
                        (start signup_page [Ok (Some tagged_fence_reply)])))
          new
    /\ forallb (fun ev => is_log ev || is_chat ev) new = true
    /\ filter is_mutation new = []
    /\ (List.length (filter is_chat new) <= 1)%nat.
Proof.
  eapply (analyze_form_asks_once (PyDict []) JsonLite.loads JsonLite.show).
  apply pair_eta.
Defined.

(** X3 on the sign-up page: the mapping returned is the one decoded
    from the reply. *)
Lemma analyze_form_outcomes_witness :
  exists new,
    added (start signup_page [Ok (Some tagged_fence_reply)])
          (snd (analyze (PyDict [])
                        (start signup_page [Ok (Some tagged_fence_reply)])))
          new
    /\ (PyDict [("first_name", PyStr "Jane")] = PyNone
        \/ exists user raw,
            In (EvChat user (Ok (Some raw))) new
            /\ JsonLite.loads (clean_reply raw)
               = Some (PyDict [("first_name", PyStr "Jane")])).
Proof.
  apply (analyze_form_outcomes (PyDict []) JsonLite.loads JsonLite.show
           (start signup_page [Ok (Some tagged_fence_reply)]) _
           (Ok (PyDict [("first_name", PyStr "Jane")]))).
  vm_compute. reflexivity.
Defined.

(** X4: the model answered with a list. *)
Lemma fill_form_rejects_non_dict_witness :
  exists msg,
    fill (PyList [PyStr "Jane"]) (start signup_page [])
    = (Raise (AttributeError msg),
       mkState (world (start signup_page []))
         (EvLog INFO "Filling form with provided data..."
            :: trace (start signup_page []))).
Proof.
  apply fill_form_rejects_non_dict. intros d. discriminate.
Defined.

(** X5 on the survey page: the boolean [True] chooses the radio button. *)
Lemma radio_click_rule_witness :
  exists s' (new : list (event page nat)),
    fill_field JsonLite.show "opt_in" (PyBool true) (start survey_page [])
    = (Ok tt, s')
    /\ added (start survey_page []) s' new
    /\ filter is_mutation new = [EvClick (open_page survey_page []) 1%nat]
    /\ (true = false -> world s' = world (start survey_page [])).
Proof.
  destruct (radio_click_rule JsonLite.show "opt_in" (PyBool true)
              (start survey_page []) (start survey_page []) 1%nat)
    as [H _]; [reflexivity | reflexivity | reflexivity |].
  exact H.
Defined.

(** X6 on the survey page: "MA" is no visible text of the dropdown, but
    it is the value of an option. *)
Lemma select_tries_text_then_value_witness :
  exists s' (new : list (event page nat)),
    fill_field JsonLite.show "state" (PyStr "MA") (start survey_page [])
    = (Ok tt, s')
    /\ filter is_mutation new
       = [EvSelectValue 2%nat "MA"; EvSelectText 2%nat "MA"]
    /\ option_map n_value (nth_error (nodes (world s')) 2) = Some (Some "MA").
Proof.
  edestruct (select_tries_text_then_value JsonLite.show "state" (PyStr "MA")
               (start survey_page []) (start survey_page []) 2%nat)
    as (s' & new & Hrun & _ & Hw & Hmut & _).
  - reflexivity.
  - vm_compute. reflexivity.
  - vm_compute. reflexivity.
  - reflexivity.
  - reflexivity.
  - vm_compute. reflexivity.
  - vm_compute. reflexivity.
  - vm_compute. reflexivity.
  - vm_compute. reflexivity.
  - exists s', new. split; [exact Hrun |]. split; [exact Hmut |].
    rewrite Hw. reflexivity.
Defined.

(** X7 on the survey page: the old content of the field is replaced. *)
Lemma text_is_cleared_then_typed_witness :
  exists s' (new : list (event page nat)),
    fill_field JsonLite.show "first_name" (PyStr "Jane")
               (start survey_page [])
    = (Ok tt, s')
    /\ filter is_mutation new
       = [EvSendKeys 0%nat "Jane"; EvClear 0%nat]
    /\ option_map n_value (nth_error (nodes (world s')) 0)
       = Some (Some "Jane").
Proof.
  edestruct (text_is_cleared_then_typed JsonLite.show "first_name"
               (PyStr "Jane") (start survey_page []) (start survey_page [])
               0%nat)
    as (s' & new & Hrun & _ & Hw & Hmut & _).
  - reflexivity.
  - vm_compute. reflexivity.
  - vm_compute. reflexivity.
  - reflexivity.
  - reflexivity.
  - vm_compute. reflexivity.
  - discriminate.
  - vm_compute. reflexivity.
  - vm_compute. reflexivity.
  - exists s', new. split; [exact Hrun |]. split; [exact Hmut |].
    rewrite Hw. reflexivity.
Defined.

(** X9 on the survey page, with a key that resolves to nothing. *)
Lemma fill_form_footprint_witness :
  exists new,
    added (start survey_page [])
          (snd (fill survey_mapping (start survey_page []))) new
    /\ forallb (fun ev => is_log ev || is_mutation ev) new = true.
Proof.
  eapply (fill_form_footprint JsonLite.show survey_mapping).
  apply pair_eta.
Defined.

(** X10 on a page without a submit control. *)
Lemma no_control_no_request_witness :
  submit (PyDict []) (start bare_page [Ok (Some "PROCEED")])
  = (Ok false,
     mkState (open_page bare_page [Ok (Some "PROCEED")])
       [EvLog WARNING "Could not find submit button.";
        EvLog INFO "Looking for submit button..."]).
Proof.
  apply (no_control_no_request (PyDict []) JsonLite.show
           (start bare_page [Ok (Some "PROCEED")])).
  intros sel Hin. simpl in Hin.
  repeat (destruct Hin as [<- | Hin]; [eexists; reflexivity |]).
  contradiction.
Defined.

(** X11 on the sign-up page: the button found by the first selector is
    clicked once. *)
Lemma approval_clicks_first_match_witness :
  exists s' (new : list (event page nat)),
    submit (PyDict []) (start signup_page [Ok (Some "PROCEED")])
    = (Ok true, s')
    /\ clicked (world s') = [3%nat]
    /\ List.length (filter is_mutation new) = 1%nat
    /\ List.length (filter is_chat new) = 1%nat.
Proof.
  edestruct (approval_clicks_first_match (PyDict []) JsonLite.show []
               (tl submit_selectors) "//button[@type='submit']"
               (start signup_page [Ok (Some "PROCEED")]) 3%nat)
    as (s' & new & Hrun & Hw & _ & Hmut & Hchat).
  - reflexivity.
  - intros sel [].
  - reflexivity.
  - vm_compute. reflexivity.
  - vm_compute. reflexivity.
  - reflexivity.
  - vm_compute. reflexivity.
  - intros m. discriminate.
  - exists s', new. split; [exact Hrun |].
    rewrite Hw, Hmut, Hchat. repeat split.
Defined.

(** X12 on the sign-up page: the model says STOP. *)
Lemma rejection_stops_the_gate_witness :
  exists s' (new : list (event page nat)),
    submit (PyDict []) (start signup_page [Ok (Some "STOP  name is empty ")])
    = (Ok false, s')
    /\ clicked (world s') = []
    /\ filter is_mutation new = []
    /\ hd_error new
       = Some (EvLog WARNING "LLM advised against submission: name is empty").
Proof.
  edestruct (rejection_stops_the_gate (PyDict []) JsonLite.show []
               (tl submit_selectors) "//button[@type='submit']"
               (start signup_page [Ok (Some "STOP  name is empty ")]) 3%nat)
    as (s' & new & Hrun & Hw & _ & Hmut & _ & Hhd).
  - reflexivity.
  - intros sel [].
  - reflexivity.
  - vm_compute. reflexivity.
  - vm_compute. reflexivity.
  - reflexivity.
  - exists s', new. split; [exact Hrun |].
    rewrite Hw. repeat split; [exact Hmut | exact Hhd].
Defined.

(** X13 on the sign-up page: the chat service cannot be reached. *)
Lemma gate_failure_means_no_submit_witness :
  exists s' (new : list (event page nat)),
    submit (PyDict []) (start signup_page []) = (Ok false, s')
    /\ clicked (world s') = []
    /\ filter is_mutation new = []
    /\ hd_error new
       = Some (EvLog ERROR "Error during form submission: Connection error.").
Proof.
  edestruct (gate_failure_means_no_submit (PyDict []) JsonLite.show []
               (tl submit_selectors) "//button[@type='submit']"
               (start signup_page []) 3%nat)
    as (s' & new & Hrun & Hw & _ & Hmut & Hhd).
  - reflexivity.
  - intros sel [].
  - reflexivity.
  - vm_compute. reflexivity.
  - vm_compute. reflexivity.
  - right. eexists. split; reflexivity.
  - exists s', new. split; [exact Hrun |].
    rewrite Hw. repeat split; [exact Hmut | exact Hhd].
Defined.

(** X14 on the sign-up page, approved. *)
Lemma submit_form_footprint_witness :
  exists new,
    added (start signup_page [Ok (Some "PROCEED")])
          (snd (submit (PyDict []) (start signup_page [Ok (Some "PROCEED")])))
          new
    /\ forallb gate_event new = true
    /\ (List.length (filter is_chat new) <= 6)%nat
    /\ (List.length (filter is_click new)
        <= List.length (filter is_proceed_reply new))%nat.
Proof.
  eapply (submit_form_footprint (PyDict []) JsonLite.show).
  apply pair_eta.
Defined.

(** X15 on a run that submits. *)
Lemma run_always_quits_witness :
  exists body,
    added happy_start (snd happy_run) (EvQuit :: body)
    /\ forallb (fun ev => negb (is_quit ev)) body = true.
Proof.
  apply (run_always_quits "form://static" (PyDict []) JsonLite.loads
           JsonLite.show JsonLite.show happy_start (snd happy_run)
           (fst happy_run)).
  vm_compute. reflexivity.
Defined.

(** X16 on a run that submits: one screenshot, saved. *)
Lemma screenshot_only_after_submit_witness :
  exists body,
    added happy_start (snd happy_run) (EvQuit :: body)
    /\ ((filter is_screenshot body = [] /\ Ok true <> Ok true)
        \/ exists path w b rest mid,
            body = (mid ++ EvScreenshot path
                      :: EvLog INFO "Form submitted successfully."
                      :: EvClick w b :: rest)%list
            /\ filter is_screenshot rest = []
            /\ (mid = [] \/ mid = [EvLog INFO ("Screenshot saved to "
                                                 ++ path)])
            /\ (Ok true = Ok true ->
                mid = [EvLog INFO ("Screenshot saved to " ++ path)])).
Proof.
  apply (screenshot_only_after_submit "form://static" (PyDict [])
           JsonLite.loads JsonLite.show JsonLite.show happy_start
           (snd happy_run) (Ok true)).
  rewrite (pair_eta happy_run) at 1. f_equal.
  vm_compute. reflexivity.
Defined.

(** X17 on the sign-up page: the chat service cannot be reached. *)
Lemma run_stops_without_mapping_witness :
  exists e,
    fst (run_agent (PyDict []) (start signup_page [])) = Raise e
    /\ (true = true -> exists msg, e = AttributeError msg).
Proof.
  edestruct (run_stops_without_mapping "form://static" (PyDict [])
               JsonLite.loads JsonLite.show JsonLite.show
               (start signup_page []))
    as (e & Hrun & He).
  - vm_compute. reflexivity.
  - vm_compute. reflexivity.
  - intros d. discriminate.
  - vm_compute. reflexivity.
  - exists e. split; [| exact He].
    unfold run_agent. now rewrite Hrun.
Defined.

End StaticExtras.
